(** * The Franklin converter: an AsciiDoc node tree rendered as block HTML

    A shallow embedding of [worker/src/util/adoc2html.ts] (the second part
    of [src/worker/src/routes/docs.ts]): the [FranklinConverter] class, its
    per-kind templates, [makeBlock], [tableToBlock], [convert] and the
    [adoc2html] entry point; and of the pure parts of the [Docs] route of
    [worker/src/routes/docs.ts]: [resolveURL] and the attributes it reads
    from the query string.

    The fetch and the response of the route are the platform's, and the
    method [hrefsToLinks] is called by nothing: both are left out.

    Conventions of the embedding.
    - A JavaScript string is a [string], character for code unit: the
      strings of the embedding are those whose code units are below 256
      (Latin-1). On these, lower case and white space are the ones of
      [String.prototype.toLowerCase] and [trim].
    - A JavaScript number that counts (the section depth, a heading level)
      is an integer: the counters start at 0 and move by 1.
    - [undefined] is [None]; a value that the source only tests for
      truthiness (title, style) is a [string], the empty one being falsy.
    - The converter is a mutable object: its fields are threaded as a
      state, and a JavaScript exception is a result of its own, so that
      "does not raise" is a statement about the returned value.
    - What a node hands over ([getContent()], [getText()], a cell's
      content) is a string; that the parser renders nested nodes by calling
      back into [convert] is its own business.
    - What the source imports from elsewhere ([toClassName], the [Book],
      the base HTML5 converter, the platform's [URL] class, the AsciiDoc
      processor and the hast parser and serialiser) is a parameter, taken
      to return without throwing unless its type here says otherwise. *)

From stdpp Require Import gmap strings list pretty.
From Stdlib Require Import ZArith Ascii String Lia.

Local Open Scope Z_scope.

(** ** JavaScript string primitives *)

Module Js.

(** The double quote, a line feed and a run of [n] spaces. *)
Definition dq : string := String "034" EmptyString.
Definition nl : string := String "010" EmptyString.

Fixpoint spaces (n : nat) : string :=
  match n with
  | O => EmptyString
  | S n' => String " " (spaces n')
  end.

(** A line break followed by [n] spaces of indentation, as the template
    literals of the source have them. *)
Definition nli (n : nat) : string := nl +:+ spaces n.

(** [ToBoolean] on a string: every string but the empty one is truthy. *)
Definition truthy (s : string) : bool :=
  match s with
  | EmptyString => false
  | String _ _ => true
  end.

(** [ToBoolean] on [string | undefined]. *)
Definition truthy_opt (o : option string) : bool :=
  match o with
  | Some s => truthy s
  | None => false
  end.

(** [`${v}`] for [v : string | undefined]. *)
Definition interp (o : option string) : string :=
  match o with
  | Some s => s
  | None => "undefined"
  end.

(** A [string | undefined] where only a truthy value is used. *)
Definition orEmpty (o : option string) : string :=
  match o with
  | Some s => s
  | None => EmptyString
  end.

(** [v === lit] for [v : string | undefined]. *)
Definition strict_eq (o : option string) (lit : string) : bool :=
  match o with
  | Some s => String.eqb s lit
  | None => false
  end.

Definition startsWith (s pre : string) : bool := String.prefix pre s.

(** [s.endsWith(suf)]. *)
Definition endsWith (s suf : string) : bool :=
  (String.length suf <=? String.length s)%nat &&
  String.eqb (substring (String.length s - String.length suf) (String.length suf) s) suf.

(** [s.slice(0, -n)] for [n > 0]: all but the last [n] characters. *)
Definition sliceEnd (s : string) (n : nat) : string :=
  substring 0 (String.length s - n) s.

(** The lower case of a code unit below 256: the capitals are [A] to [Z]
    and, above 127, U+00C0 to U+00DE without the multiplication sign
    U+00D7; each has its small letter 32 further. *)
Definition lowerChar (c : ascii) : ascii :=
  let n := nat_of_ascii c in
  if ((65 <=? n) && (n <=? 90) || (192 <=? n) && (n <=? 214)
      || (216 <=? n) && (n <=? 222))%nat
  then ascii_of_nat (n + 32) else c.

(** [s.toLowerCase()]. *)
Fixpoint toLowerCase (s : string) : string :=
  match s with
  | EmptyString => EmptyString
  | String c s' => String (lowerChar c) (toLowerCase s')
  end.

(** The white space and line terminators that [trim] strips, among the
    code units below 256: U+0009 to U+000D, the space and the no-break
    space U+00A0. *)
Definition isSpace (c : ascii) : bool :=
  let n := nat_of_ascii c in
  ((9 <=? n) && (n <=? 13) || (n =? 32) || (n =? 160))%nat.

Fixpoint trimStart (s : string) : string :=
  match s with
  | EmptyString => EmptyString
  | String c s' => if isSpace c then trimStart s' else s
  end.

Fixpoint trimEnd (s : string) : string :=
  match s with
  | EmptyString => EmptyString
  | String c s' =>
      match trimEnd s' with
      | EmptyString => if isSpace c then EmptyString else String c EmptyString
      | t => String c t
      end
  end.

(** [s.trim()]. *)
Definition trim (s : string) : string := trimEnd (trimStart s).

(** [s.replace(/[\t]/g, ' ')]. *)
Fixpoint replaceTabs (s : string) : string :=
  match s with
  | EmptyString => EmptyString
  | String c s' =>
      String (if Ascii.eqb c "009" then " "%char else c) (replaceTabs s')
  end.

(** [xs.join(sep)]. *)
Definition join (sep : string) (xs : list string) : string := String.concat sep xs.

(** [s.split(sep)] for a one-character separator. *)
Fixpoint split (sep : ascii) (s : string) : list string :=
  match s with
  | EmptyString => [EmptyString]
  | String c s' =>
      if Ascii.eqb c sep then EmptyString :: split sep s'
      else match split sep s' with
           | x :: xs => String c x :: xs
           | [] => [String c EmptyString]
           end
  end.

(** [/^https?:\/\//.test(s)]. *)
Definition isHttpUrl (s : string) : bool :=
  startsWith s "http://" || startsWith s "https://".

(** [`${n}`] for an integral number. *)
Definition numToString (n : Z) : string := pretty n.

End Js.

(** ** Hostname normalisation

    [url.hostname.replace(/-{3,}/g, '--').toLowerCase()]. *)

Definition isHyphen (c : ascii) : bool := Ascii.eqb c "-".

(** What the replacement writes for a run of [run] hyphens: a run of three
    or more becomes two, a shorter one is kept. *)
Definition flushRun (run : nat) : string :=
  match run with
  | 0%nat => EmptyString
  | 1%nat => "-"
  | _ => "--"
  end.

(** The global replace of [/-{3,}/] by ['--'], as one left-to-right scan:
    the quantifier is greedy, so a match is a whole maximal run of hyphens;
    [run] is the length of the run read so far. *)
Fixpoint collapseFrom (run : nat) (s : string) : string :=
  match s with
  | EmptyString => flushRun run
  | String c s' =>
      if isHyphen c then collapseFrom (S run) s'
      else flushRun run +:+ String c (collapseFrom 0 s')
  end.

Definition collapseHyphenRuns (s : string) : string := collapseFrom 0 s.

(** A run of [n] hyphens. *)
Fixpoint hyphens (n : nat) : string :=
  match n with
  | O => EmptyString
  | S n' => String "-" (hyphens n')
  end.

Definition normalizeHostname (hostname : string) : string :=
  Js.toLowerCase (collapseHyphenRuns hostname).

(** ** The node tree

    The parser's nodes, through the accessors the converter calls. A node
    answers every accessor; the ones its kind does not use hold the empty
    value. *)

(** A table cell: [cell.getContent()]. *)
Record Cell := mkCell { cell_getContent : string }.

(** [table.getRows()]: the head, body and foot sections. *)
Record Rows := mkRows {
  head_rows : list (list Cell);
  body_rows : list (list Cell);
  foot_rows : list (list Cell) }.

#[local] Set Warnings "-register-all".

(** A column of a description-list row: one entry, or an array of them. *)
Inductive DlistCol :=
  | DlistEntry (text : string)
  | DlistArray (cols : list DlistCol).

(** The owning document, through [getAttribute]. *)
Record Document := mkDocument { doc_attributes : gmap string string }.

Inductive Node := mkNode {
  getNodeName : string;
  getDocument : Document;
  (** [getAttribute(key)] is a lookup here; [getRole()] is the role attribute. *)
  attributes : gmap string string;
  (** [getTitle()] and [getStyle()]: only tested for truthiness. *)
  getTitle : string;
  getStyle : string;
  getLevel : Z;
  (** [getTarget()]: [string | undefined]. *)
  getTarget : option string;
  getText : string;
  getType : string;
  getContent : string;
  (** [getBlocks()] of a block or list; of a description list it is the
      array of rows, kept apart as [getDlistRows]. A row holds the terms
      and the description; where the parser has none (a term without a
      description) it holds its [nil], which is [None] here. *)
  getBlocks : list Node;
  getDlistRows : list (list (option DlistCol));
  getRows : Rows }.

Definition getAttribute (node : Node) (key : string) : option string :=
  attributes node !! key.

Definition getRole (node : Node) : option string := getAttribute node "role".

Definition getHeadRows (node : Node) : list (list Cell) := head_rows (getRows node).

(** What [convert] hands back: a string, or whatever else a member that
    the [templates] object inherits returns, which is the node itself. *)
Inductive Content :=
  | Str (s : string)
  | Obj (node : Node).

(** ** The converter's state, and its monad *)

Inductive LogLevel := LogDebug | LogInfo | LogWarn | LogError.

Inductive LogArg :=
  | LogStr (s : string)
  | LogNode (n : Node).

(** One call of [console.debug], [info], [warn] or [error]. *)
Record LogEntry := mkLog { log_level : LogLevel; log_args : list LogArg }.

(** The mutable fields of a [FranklinConverter], and the console. *)
Record FranklinConverter := mkConverter {
  sectionDepth : Z;
  inSection : bool;
  doc : option Document;
  console : list LogEntry }.

(** [new FranklinConverter(...)]: depth 0, outside a section, no document. *)
Definition newConverter : FranklinConverter :=
  {| sectionDepth := 0; inSection := false; doc := None; console := [] |}.

(** A JavaScript exception. *)
Inductive Exn := TypeError (message : string).

(** A method of the converter: it reads and writes the fields, and either
    returns a value or throws. *)
Definition M (A : Type) : Type :=
  FranklinConverter -> (Exn + A) * FranklinConverter.

Definition ret {A} (a : A) : M A := fun st => (inr a, st).

Definition throw {A} (e : Exn) : M A := fun st => (inl e, st).

Definition bind {A B} (m : M A) (k : A -> M B) : M B :=
  fun st =>
    match m st with
    | (inr a, st') => k a st'
    | (inl e, st') => (inl e, st')
    end.

Declare Scope conv_scope.
Delimit Scope conv_scope with conv.
Notation "x <- m ;; k" := (bind m (fun x => k))
  (at level 100, m at next level, right associativity) : conv_scope.
Notation "m ;; k" := (bind m (fun _ => k))
  (at level 100, right associativity) : conv_scope.
Local Open Scope conv_scope.

Definition gets {A} (f : FranklinConverter -> A) : M A := fun st => (inr (f st), st).

Definition modify (f : FranklinConverter -> FranklinConverter) : M unit :=
  fun st => (inr tt, f st).

Definition set_sectionDepth (d : Z) (st : FranklinConverter) : FranklinConverter :=
  {| sectionDepth := d; inSection := inSection st; doc := doc st; console := console st |}.

Definition set_doc (d : Document) (st : FranklinConverter) : FranklinConverter :=
  {| sectionDepth := sectionDepth st; inSection := inSection st; doc := Some d;
     console := console st |}.

Definition log (lvl : LogLevel) (args : list LogArg) : M unit :=
  modify (fun st =>
    {| sectionDepth := sectionDepth st; inSection := inSection st; doc := doc st;
       console := console st ++ [mkLog lvl args] |}).

(** [xs.map((x) => f(x))], the calls made from left to right. *)
Definition mapM {A B} (f : A -> M B) : list A -> M (list B) :=
  fix go (xs : list A) : M (list B) :=
    match xs with
    | [] => ret []
    | x :: xs' => y <- f x ;; ys <- go xs' ;; ret (y :: ys)
    end.

(** ** External collaborators *)

(** The platform's [URL] class, as far as [inline_anchor] uses it. *)
Record UrlApi := mkUrlApi {
  Url : Type;
  (** [new URL(s)]; [None] when the constructor throws. *)
  url_parse : string -> option Url;
  (** The [hostname] getter and setter. *)
  url_hostname : Url -> string;
  url_set_hostname : Url -> string -> Url;
  url_toString : Url -> string }.

(** The book: [book.resolve(path)]. *)
Record Book := mkBook { resolve : string -> string }.

(** ** The converter *)

(** The keys of the [templates] object. *)
Inductive Template :=
  | T_paragraph | T_inline_anchor | T_floating_title | T_embedded
  | T_thematic_break | T_section | T_literal | T_admonition | T_listing
  | T_inline_quoted | T_ulist | T_dlist | T_olist | T_list_item | T_image
  | T_table.

(** The [templates] object is an object literal: besides its own keys it
    answers to the names that every object inherits from
    [Object.prototype]. *)
Inductive ObjectMember :=
  | O_constructor | O_hasOwnProperty | O_isPrototypeOf | O_propertyIsEnumerable
  | O_toLocaleString | O_toString | O_valueOf | O_proto
  | O_defineGetter | O_defineSetter | O_lookupGetter | O_lookupSetter.

(** The property names of [Object.prototype]. *)
Definition objectPrototype (name : string) : option ObjectMember :=
  if String.eqb name "constructor" then Some O_constructor
  else if String.eqb name "hasOwnProperty" then Some O_hasOwnProperty
  else if String.eqb name "isPrototypeOf" then Some O_isPrototypeOf
  else if String.eqb name "propertyIsEnumerable" then Some O_propertyIsEnumerable
  else if String.eqb name "toLocaleString" then Some O_toLocaleString
  else if String.eqb name "toString" then Some O_toString
  else if String.eqb name "valueOf" then Some O_valueOf
  else if String.eqb name "__proto__" then Some O_proto
  else if String.eqb name "__defineGetter__" then Some O_defineGetter
  else if String.eqb name "__defineSetter__" then Some O_defineSetter
  else if String.eqb name "__lookupGetter__" then Some O_lookupGetter
  else if String.eqb name "__lookupSetter__" then Some O_lookupSetter
  else None.

(** What a lookup in the [templates] object finds: a template of the
    literal, or an inherited member. *)
Inductive Property :=
  | Own (template : Template)
  | Inherited (member : ObjectMember).

(** [this.templates[name]]: [None] is [undefined]. The own keys come
    first; a name that is none of them goes up to [Object.prototype]. *)
Definition templates (name : string) : option Property :=
  if String.eqb name "paragraph" then Some (Own T_paragraph)
  else if String.eqb name "inline_anchor" then Some (Own T_inline_anchor)
  else if String.eqb name "floating-title" then Some (Own T_floating_title)
  else if String.eqb name "embedded" then Some (Own T_embedded)
  else if String.eqb name "thematic_break" then Some (Own T_thematic_break)
  else if String.eqb name "section" then Some (Own T_section)
  else if String.eqb name "literal" then Some (Own T_literal)
  else if String.eqb name "admonition" then Some (Own T_admonition)
  else if String.eqb name "listing" then Some (Own T_listing)
  else if String.eqb name "inline_quoted" then Some (Own T_inline_quoted)
  else if String.eqb name "ulist" then Some (Own T_ulist)
  else if String.eqb name "dlist" then Some (Own T_dlist)
  else if String.eqb name "olist" then Some (Own T_olist)
  else if String.eqb name "list_item" then Some (Own T_list_item)
  else if String.eqb name "image" then Some (Own T_image)
  else if String.eqb name "table" then Some (Own T_table)
  else option_map Inherited (objectPrototype name).

(** [template(node)] for an inherited member: a call without a receiver,
    so that [this] is [undefined]. [toString] names the receiver's class;
    [constructor] is [Object], which hands an object back as it is; the
    value under [__proto__] is [Object.prototype] itself, which is no
    function; every other member wants an object for [this]. *)
Definition callInherited (member : ObjectMember) (node : Node) : M Content :=
  match member with
  | O_toString => ret (Str "[object Undefined]")
  | O_constructor => ret (Obj node)
  | O_proto => throw (TypeError "template is not a function")
  | O_hasOwnProperty | O_isPrototypeOf | O_propertyIsEnumerable | O_toLocaleString
  | O_valueOf | O_defineGetter | O_defineSetter | O_lookupGetter | O_lookupSetter =>
      throw (TypeError "Cannot convert undefined or null to object")
  end.

(** [<a href="${href}">${text}</a>]. *)
Definition anchorTag (href text : string) : string :=
  "<a href=" +:+ Js.dq +:+ href +:+ Js.dq +:+ ">" +:+ text +:+ "</a>".

(** [convertCol] of the [dlist] template. *)
Fixpoint convertCol (col : DlistCol) : string :=
  match col with
  | DlistArray cols => Js.join EmptyString (map convertCol cols)
  | DlistEntry text => "<p>" +:+ text +:+ "</p>"
  end.

Section Converter.

(** [toClassName] of [./string], which is not among the sources. *)
Variable toClassName : string -> string.
Variable book : Book.
Variable topicPath : string.
Variable URL : UrlApi.
(** [String(node)]: the text that the parser's node object gives of
    itself where a string is wanted. *)
Variable nodeToString : Node -> string.
(** The type of the [opts] argument, and [baseConverter.convert]. *)
Variable Opts : Type.
Variable baseConverter : Node -> option string -> option Opts -> string.

Definition topicDirPath : string :=
  Js.join "/" (removelast (Js.split "/" topicPath)).

(** *** [makeBlock] *)

(** The part of the class attribute that follows the block's name. *)
Definition variantSuffix (variants : list string) : string :=
  let variantStr := Js.join " " (map toClassName variants) in
  if Js.truthy variantStr then " " +:+ variantStr else EmptyString.

Definition makeBlock (name content : string) (variants : list string)
    (singleCell : bool) : string :=
  Js.nli 6 +:+ "<div class=" +:+ Js.dq +:+ toClassName name
    +:+ variantSuffix variants +:+ Js.dq +:+ ">"
  +:+ Js.nli 8 +:+ (if singleCell then "<div><div>" +:+ Js.nl else EmptyString)
    +:+ Js.trim content
    +:+ (if singleCell then Js.nl +:+ "</div></div>" else EmptyString)
  +:+ Js.nli 6 +:+ "</div>".

(** *** [tableToBlock] and [tableToTableBlock] *)

Definition processCols (cols : list Cell) : string :=
  Js.join EmptyString (map (fun col => "<div>" +:+ cell_getContent col +:+ "</div>") cols).

Definition processRows (rows : list (list Cell)) : string :=
  Js.join Js.nl (map (fun row => "<div>" +:+ processCols row +:+ "</div>") rows).

Definition tableContent (node : Node) : string :=
  let rows := getRows node in
  Js.nli 4 +:+ processRows (head_rows rows)
  +:+ Js.nli 4 +:+ processRows (body_rows rows)
  +:+ Js.nli 4 +:+ processRows (foot_rows rows).

Definition tableVariants (node : Node) : list string :=
  match head_rows (getRows node) with
  | [] => ["headless"]
  | _ :: _ => [EmptyString]
  end.

Definition tableToBlock (name : string) (node : Node) : string :=
  makeBlock name (tableContent node) (tableVariants node) false.

Definition tableToTableBlock (node : Node) : string :=
  tableToBlock "table" node.

(** [iconsEnabled]: the document must have been set by a [convert]. *)
Definition iconsEnabled : M bool :=
  d <- gets doc ;;
  match d with
  | Some d => ret (Js.truthy_opt (doc_attributes d !! "icons"))
  | None => throw (TypeError "Cannot read properties of undefined (reading 'getAttribute')")
  end.

(** *** The templates *)

Definition paragraph (node : Node) : M string :=
  ret ("<p>" +:+ getContent node +:+ "</p>").

(** The target of a link with the [.franklin] suffix removed and, when it
    parses as a URL, its hostname normalised. *)
Definition rewriteTarget (href : string) : string :=
  let href :=
    if Js.endsWith href ".franklin"
    then Js.sliceEnd href (String.length ".franklin") else href in
  match url_parse URL href with
  | Some url =>
      let url := url_set_hostname URL url (normalizeHostname (url_hostname URL url)) in
      url_toString URL url
  | None => href
  end.

Definition inline_anchor (node : Node) : M string :=
  let href := getTarget node in
  let isInclude := Js.strict_eq (getRole node) "bare include" in
  let variants := if isInclude then ["include"] else [] in
  let href :=
    match href with
    | Some h => if Js.truthy h then Some (rewriteTarget h) else href
    | None => href
    end in
  if isInclude then
    match href with
    | None =>
        throw (TypeError "Cannot read properties of undefined (reading 'endsWith')")
    | Some h =>
        let h := if Js.endsWith h ".adoc" then Js.sliceEnd h (String.length ".adoc") else h in
        let '(h, variants) :=
          if negb (Js.isHttpUrl h)
          then (resolve book (topicDirPath +:+ "/" +:+ h), variants ++ ["docs"])
          else (h, variants) in
        ret (makeBlock "fragment" (anchorTag h (getText node)) variants true)
    end
  else ret (anchorTag (Js.interp href) (getText node)).

Definition floating_title (node : Node) : M string :=
  log LogError [LogStr "NOT IMPLEMENTED: floating title: "; LogNode node] ;;
  ret EmptyString.

Definition embedded (node : Node) : M string := ret (getContent node).

Definition thematic_break (node : Node) : M string := ret "<hr>".

(** The [content] of the [section] template: the optional heading, then
    the rendered blocks, one per line. *)
Definition sectionContent (node : Node) (rendered : list string) : string :=
  let level := getLevel node in
  let title := getTitle node in
  let tag := "h" +:+ Js.numToString (level + 1) in
  Js.nli 10
  +:+ (if Js.truthy title
       then "<" +:+ tag +:+ ">" +:+ title +:+ "</" +:+ tag +:+ ">" else EmptyString)
  +:+ Js.nli 10 +:+ Js.join Js.nl rendered.

Definition section (convert : Node -> M string) (node : Node) : M string :=
  let blocks := getBlocks node in
  depth <- gets sectionDepth ;;
  let closer := if 0 <? depth then "</div>" else EmptyString in
  modify (set_sectionDepth (depth + 1)) ;;
  rendered <- mapM convert blocks ;;
  let content := sectionContent node rendered in
  let wrapper :=
    closer +:+ "<div>" +:+ content
    +:+ (if Js.truthy closer then EmptyString else "</div>") in
  depth' <- gets sectionDepth ;;
  modify (set_sectionDepth (depth' - 1)) ;;
  ret wrapper.

Definition literal (node : Node) : M string :=
  let content := getContent node in
  ret ("<pre><code>" +:+ Js.replaceTabs content +:+ "</code></pre>").

Definition admonition (node : Node) : M string :=
  let style := getStyle node in
  let title := Js.trim (getTitle node) in
  let title := if Js.truthy title then "<h6>" +:+ title +:+ "</h6>" else title in
  ret (Js.nli 10 +:+ "<div class=" +:+ Js.dq +:+ "admonition " +:+ Js.toLowerCase style
         +:+ Js.dq +:+ ">"
       +:+ Js.nli 12 +:+ "<div>"
       +:+ Js.nli 14 +:+ "<div>"
       +:+ Js.nli 16 +:+ (if Js.truthy title then title +:+ Js.nl else EmptyString)
         +:+ getContent node
       +:+ Js.nli 14 +:+ "</div>"
       +:+ Js.nli 12 +:+ "</div>"
       +:+ Js.nli 10 +:+ "</div>").

Definition listing (node : Node) : M string := literal node.

Definition inline_quoted (node : Node) : M string :=
  let content := getText node in
  let type := getType node in
  if String.eqb type "strong" then ret ("<strong>" +:+ content +:+ "</strong>")
  else if String.eqb type "monospaced" then ret ("<code>" +:+ content +:+ "</code>")
  else if String.eqb type "emphasis" then ret ("<em>" +:+ content +:+ "</em>")
  else
    log LogWarn [LogStr "[inline_quoted] unhandled node: "; LogNode node; LogStr type] ;;
    ret content.

Definition ulist (convert : Node -> M string) (node : Node) : M string :=
  let blocks := getBlocks node in
  rendered <- mapM convert blocks ;;
  let content := Js.join EmptyString rendered in
  ret (if Js.truthy content then "<ul>" +:+ content +:+ "</ul>" else EmptyString).

(** One column of a row of the [dlist] template: [convertCol] asks a
    column that is no array for its text, which the parser's [nil] does
    not have. *)
Definition dlistCol (col : option DlistCol) : M string :=
  match col with
  | Some col => ret ("<div>" +:+ convertCol col +:+ "</div>")
  | None => throw (TypeError "col.getText is not a function")
  end.

Definition dlistRow (row : list (option DlistCol)) : M string :=
  cols <- mapM dlistCol row ;;
  ret ("<div>" +:+ Js.join EmptyString cols +:+ "</div>").

Definition dlist (node : Node) : M string :=
  let rows := getDlistRows node in
  rendered <- mapM dlistRow rows ;;
  ret (Js.nli 10 +:+ "<div class=" +:+ Js.dq +:+ "dlist" +:+ Js.dq +:+ ">"
       +:+ Js.nli 12 +:+ Js.join EmptyString rendered
       +:+ Js.nli 10 +:+ "</div>").

Definition olist (convert : Node -> M string) (node : Node) : M string :=
  let blocks := getBlocks node in
  rendered <- mapM convert blocks ;;
  let content := Js.join EmptyString rendered in
  let list := if Js.truthy content then "<ol>" +:+ content +:+ "</ol>" else EmptyString in
  if negb (Js.strict_eq (getAttribute node "role") "procedure") then ret list
  else ret (makeBlock "procedure" list [] true).

(** [a || b] on strings. *)
Definition orElse (a b : string) : string := if Js.truthy a then a else b.

Definition list_item (convert : Node -> M string) (node : Node) : M string :=
  let baseContent := getContent node in
  let text := getText node in
  if negb (Js.truthy text) && negb (Js.truthy baseContent) then ret EmptyString
  else
    let blocks := getBlocks node in
    rendered <- mapM convert blocks ;;
    let content := Js.join EmptyString rendered in
    let content := if negb (Js.truthy content) then baseContent else content in
    let result :=
      "<li>"
      +:+ (if Js.truthy text
           then "<p>" +:+ orElse text EmptyString +:+ "</p>" +:+ orElse content EmptyString
           else EmptyString)
      +:+ "</li>" in
    ret result.

Definition image (node : Node) : M string :=
  let src := getAttribute node "target" in
  match src with
  | None => ret EmptyString
  | Some src =>
      if negb (Js.truthy src) then ret EmptyString
      else
        let href := resolve book ("/_graphics/" +:+ src) in
        ret ("<img src=" +:+ Js.dq +:+ href +:+ Js.dq
             +:+ " alt=" +:+ Js.dq
               +:+ orElse (Js.orEmpty (getAttribute node "alt")) EmptyString
               +:+ Js.dq
             +:+ " width=" +:+ Js.dq +:+ Js.interp (getAttribute node "width") +:+ Js.dq
             +:+ ">")
  end.

Definition table (node : Node) : M string :=
  let title := getTitle node in
  let head := getHeadRows node in
  let generic := ret (tableToTableBlock node) in
  if Js.truthy title && (List.length head =? 0)%nat
  then
    (* no header rows, only a title -> block *)
    let block := tableToBlock title node in
    if Js.truthy block then ret block else generic
  else generic.

(** [template(node)] for the template registered under a key; [convert] is
    the method the list and section templates call on each child block. *)
Definition runTemplate (convert : Node -> M string) (t : Template) (node : Node)
    : M string :=
  match t with
  | T_paragraph => paragraph node
  | T_inline_anchor => inline_anchor node
  | T_floating_title => floating_title node
  | T_embedded => embedded node
  | T_thematic_break => thematic_break node
  | T_section => section convert node
  | T_literal => literal node
  | T_admonition => admonition node
  | T_listing => listing node
  | T_inline_quoted => inline_quoted node
  | T_ulist => ulist convert node
  | T_dlist => dlist node
  | T_olist => olist convert node
  | T_list_item => list_item convert node
  | T_image => image node
  | T_table => table node
  end.

(** [transform || node.getNodeName()]. *)
Definition effectiveName (node : Node) (transform : option string) : string :=
  if Js.truthy_opt transform then Js.interp transform else getNodeName node.

(** The string of what [convert] handed back, where one is wanted. *)
Definition contentToString (content : Content) : string :=
  match content with
  | Str s => s
  | Obj node => nodeToString node
  end.

(** *** [convert] *)

Fixpoint convert (node : Node) (transform : option string) (opts : option Opts)
    {struct node} : M Content :=
  let name := effectiveName node transform in
  log LogDebug
    [LogStr ("convert node: transform=" +:+ Js.interp transform +:+ " name=" +:+ name)] ;;
  modify (set_doc (getDocument node)) ;;
  match templates name with
  | Some (Own template) =>
      (* a template returns a string, which is never [null] *)
      content <-
        runTemplate
          (fun block => content <- convert block None None ;; ret (contentToString content))
          template node ;;
      ret (Str content)
  | Some (Inherited member) =>
      (* what an inherited member returns is not [null] either *)
      callInherited member node
  | None =>
      log LogWarn [LogStr "handling node with base template..."; LogStr name] ;;
      let defaultContent := baseConverter node transform opts in
      log LogInfo
        [LogStr "handled node with base template: "; LogStr name; LogNode node;
         LogStr defaultContent] ;;
      ret (Str defaultContent)
  end.

(** [this.convert(block)], as the templates call it on a child: each of
    them joins the results, and the join takes the string of each. *)
Definition convertBlock (block : Node) : M string :=
  content <- convert block None None ;; ret (contentToString content).

End Converter.

Arguments convert toClassName book topicPath URL nodeToString {Opts} baseConverter
  node transform opts.
Arguments convertBlock toClassName book topicPath URL nodeToString {Opts} baseConverter
  block.

(** ** [adoc2html] *)

(** A node of the hast tree that [fromHtml] builds. *)
Inductive HastNode :=
  | HElement (tagName : string) (properties : list (string * string))
      (children : list HastNode)
  | HText (value : string)
  | HComment (value : string)
  | HDoctype.

Record HastRoot := mkRoot { root_children : list HastNode }.

Definition wrappedElements : list string := ["ol"; "ul"].

(** The body of the [forEach]: a top-level list element is replaced by a
    [div] whose only child is the element. *)
Definition wrapListElement (element : HastNode) : HastNode :=
  match element with
  | HElement tagName _ _ =>
      if Js.truthy tagName && existsb (String.eqb tagName) wrappedElements
      then HElement "div" [] [element]
      else element
  | _ => element
  end.

Definition wrapTopLevelLists (tree : HastRoot) : HastRoot :=
  {| root_children := map wrapListElement (root_children tree) |}.

(** The page that surrounds the content when [plain] is not set: the text
    before the [<main>] element and the text after it. *)
Definition pageHead : string :=
  Js.nli 2 +:+ "<!DOCTYPE html>"
  +:+ Js.nli 2 +:+ "<html>"
  +:+ Js.nli 4 +:+ "<head>"
  +:+ Js.nli 6 +:+ "<meta name=" +:+ Js.dq +:+ "viewport" +:+ Js.dq
    +:+ " content=" +:+ Js.dq +:+ "width=device-width, initial-scale=1" +:+ Js.dq +:+ ">"
  +:+ Js.nli 6 +:+ "<script src=" +:+ Js.dq +:+ "/scripts/scripts.js" +:+ Js.dq
    +:+ " type=" +:+ Js.dq +:+ "module" +:+ Js.dq +:+ "></script>"
  +:+ Js.nli 6 +:+ "<link rel=" +:+ Js.dq +:+ "stylesheet" +:+ Js.dq
    +:+ " href=" +:+ Js.dq +:+ "/styles/styles.css" +:+ Js.dq +:+ ">"
  +:+ Js.nli 6 +:+ "<link rel=" +:+ Js.dq +:+ "icon" +:+ Js.dq
    +:+ " href=" +:+ Js.dq +:+ "data:," +:+ Js.dq +:+ ">"
  +:+ Js.nli 4 +:+ "</head>"
  +:+ Js.nli 4
  +:+ Js.nli 4 +:+ "<body>"
  +:+ Js.nli 6 +:+ "<header></header>"
  +:+ Js.nli 6.

Definition pageFoot : string :=
  Js.nli 6 +:+ "<footer></footer>"
  +:+ Js.nli 4 +:+ "</body>"
  +:+ Js.nli 2 +:+ "</html>".

(** The template literal of the page, with [content] interpolated. *)
Definition page (content : string) : string :=
  pageHead +:+ "<main>" +:+ Js.nli 8 +:+ content +:+ Js.nli 6 +:+ "</main>" +:+ pageFoot.

Section Adoc2html.

Variable toClassName : string -> string.
Variable URL : UrlApi.
Variable nodeToString : Node -> string.
Variable Opts : Type.
(** [new AsciiDoctor.Html5Converter()]. *)
Variable baseConverter : Node -> option string -> option Opts -> string.
(** The remaining processor options ([...opts]). *)
Variable ProcessorOptions : Type.

Record Options := mkOptions {
  opt_backend : option string;
  opt_attributes : option (gmap string string);
  opt_plain : option bool;
  opt_book : Book;
  opt_topicPath : string;
  opt_rest : ProcessorOptions }.

(** [AsciiDoctor.convert(content, { ...opts, backend, attributes })], given
    the converter registered for the [franklin] backend: the HTML of the
    document, or the exception that the walk ended with (the processor
    catches none that the converter throws). *)
Variable AsciiDoctor_convert :
  (Node -> option string -> option Opts -> M Content) ->
  string -> ProcessorOptions -> string -> option (gmap string string) -> Exn + string.
(** [fromHtml(html, { fragment: true, verbose: false })] and [toHtml]. *)
Variable fromHtml : string -> HastRoot.
Variable toHtml : HastRoot -> string.

(** The HTML that the processor returns for the document. *)
Definition convertedHtml (content : string) (options : Options) : Exn + string :=
  let backend := default "franklin" (opt_backend options) in
  let franklin :=
    convert toClassName (opt_book options) (opt_topicPath options) URL nodeToString
      baseConverter in
  AsciiDoctor_convert franklin content (opt_rest options) backend (opt_attributes options).

(** The tree that both branches serialise. *)
Definition contentTree (html : string) : HastRoot :=
  let tree := fromHtml html in
  wrapTopLevelLists tree.

(** The call returns a string, or ends with the exception of the
    conversion. *)
Definition adoc2html (content : string) (options : Options) : Exn + string :=
  match convertedHtml content options with
  | inl e => inl e
  | inr html =>
      let tree := contentTree html in
      inr (if default false (opt_plain options) then toHtml tree
           else page (toHtml tree))
  end.


End Adoc2html.

(** ** An instance of the [URL] class

    The URL standard restricted to [http] and [https] URLs made of a
    scheme, a host name and a path: no credentials, port, query or
    fragment, a host of ASCII letters, digits, hyphens and dots that is
    neither an IPv4 address nor in Punycode, a path of unreserved
    characters without dot segments, and no white space around. On these the parser below agrees with
    the standard; every other input is outside this instance, which
    reports it as a failure. *)

Module UrlModel.

Record UrlRecord := mkUrl { scheme : string; host : string; path : string }.

Definition isAlpha (c : ascii) : bool :=
  let n := nat_of_ascii c in
  ((65 <=? n) && (n <=? 90) || (97 <=? n) && (n <=? 122))%nat.

Definition isDigit (c : ascii) : bool :=
  let n := nat_of_ascii c in ((48 <=? n) && (n <=? 57))%nat.

Fixpoint forallb_string (p : ascii -> bool) (s : string) : bool :=
  match s with
  | EmptyString => true
  | String c s' => p c && forallb_string p s'
  end.

(** [s] up to the first character satisfying [stop], and the rest. *)
Fixpoint span (stop : ascii -> bool) (s : string) : string * string :=
  match s with
  | EmptyString => (EmptyString, EmptyString)
  | String c s' =>
      if stop c then (EmptyString, s)
      else let '(a, b) := span stop s' in (String c a, b)
  end.

Fixpoint dropWhile (p : ascii -> bool) (s : string) : string :=
  match s with
  | EmptyString => EmptyString
  | String c s' => if p c then dropWhile p s' else s
  end.

Definition isSlash (c : ascii) : bool := Ascii.eqb c "/" || Ascii.eqb c "092".

Definition isHostChar (c : ascii) : bool :=
  isAlpha c || isDigit c || Ascii.eqb c "-" || Ascii.eqb c ".".

Definition isPathChar (c : ascii) : bool :=
  isAlpha c || isDigit c || Ascii.eqb c "-" || Ascii.eqb c "." || Ascii.eqb c "_"
  || Ascii.eqb c "~" || Ascii.eqb c "/".

(** A label of a host inside the instance: not empty, not Punycode. *)
Definition plainLabel (l : string) : bool :=
  Js.truthy l && negb (String.prefix "xn--" (Js.toLowerCase l)).

(** The last label starts with a letter, so the host is no IPv4 address. *)
Definition lastLabelAlpha (labels : list string) : bool :=
  match last labels with
  | Some (String c _) => isAlpha c
  | _ => false
  end.

(** The host parser on the instance's host names: the ASCII lower case. *)
Definition parseHost (input : string) : option string :=
  let labels := Js.split "." input in
  if forallb_string isHostChar input && forallb plainLabel labels && lastLabelAlpha labels
  then Some (Js.toLowerCase input)
  else None.

Definition plainSegment (seg : string) : bool :=
  negb (String.eqb seg ".") && negb (String.eqb seg "..").

Definition parsePath (input : string) : option string :=
  match input with
  | EmptyString => Some "/"
  | String c _ =>
      if Ascii.eqb c "/" && forallb_string isPathChar input
         && forallb plainSegment (Js.split "/" input)
      then Some input
      else None
  end.

(** [new URL(input)] without a base. *)
Definition parse (input : string) : option UrlRecord :=
  let '(sch, rest) := span (fun c => Ascii.eqb c ":") input in
  let sch := Js.toLowerCase sch in
  if String.eqb sch "http" || String.eqb sch "https" then
    match rest with
    | String _ rest =>
        let rest := dropWhile isSlash rest in
        let '(authority, rest) :=
          span (fun c => isSlash c || Ascii.eqb c "?" || Ascii.eqb c "#") rest in
        match parseHost authority, parsePath rest with
        | Some h, Some p => Some {| scheme := sch; host := h; path := p |}
        | _, _ => None
        end
    | EmptyString => None
    end
  else None.

(** The [hostname] setter: a value that is no host leaves the URL as it is. *)
Definition setHostname (url : UrlRecord) (value : string) : UrlRecord :=
  match parseHost value with
  | Some h => {| scheme := scheme url; host := h; path := path url |}
  | None => url
  end.

(** [url.toString()]: the URL serialiser. *)
Definition serialize (url : UrlRecord) : string :=
  scheme url +:+ "://" +:+ host url +:+ path url.

Definition api : UrlApi :=
  {| Url := UrlRecord; url_parse := parse; url_hostname := host;
     url_set_hostname := setHostname; url_toString := serialize |}.

End UrlModel.

(** ** Counting tags in a rendered string *)

(** The number of positions of [s] at which [pat] occurs. *)
Fixpoint countOccurrences (pat s : string) : nat :=
  match s with
  | EmptyString => 0
  | String _ s' =>
      ((if String.prefix pat s then 1 else 0) + countOccurrences pat s')%nat
  end.

(** No end of [a] is the beginning of an occurrence of [pat] that [a] does
    not hold whole. *)
Fixpoint noPartialMatch (pat a : string) : bool :=
  match a with
  | EmptyString => true
  | String _ a' =>
      negb (String.prefix a pat && (String.length a <? String.length pat)%nat)
      && noPartialMatch pat a'
  end.

(** [c] occurs in [s]. *)
Fixpoint occursIn (c : ascii) (s : string) : bool :=
  match s with
  | EmptyString => false
  | String x s' => Ascii.eqb x c || occursIn c s'
  end.

(** A pattern without its first character. *)
Definition patternTail (pat : string) : string :=
  match pat with
  | EmptyString => EmptyString
  | String _ t => t
  end.

(** The class names of a class attribute: split at the spaces. *)
Definition classTokens (cls : string) : list string :=
  List.filter Js.truthy (Js.split " " cls).

(** ** The calls of [convert] that throw *)










(** The converter after what [convert] does before the lookup, whatever
    the kind: the debug line and the document reference. *)
Definition entered (node : Node) (transform : option string) (st : FranklinConverter)
    : FranklinConverter :=
  {| sectionDepth := sectionDepth st;
     inSection := inSection st;
     doc := Some (getDocument node);
     console :=
       console st ++
       [ mkLog LogDebug
           [LogStr ("convert node: transform=" +:+ Js.interp transform +:+ " name="
                    +:+ effectiveName node transform)] ] |}.

(** ** Values for the parameters, used in the examples *)

Module Example.

(** A value for the [toClassName] parameter in the examples: lower case,
    which is all that their class names need. *)
Definition className (name : string) : string := Js.toLowerCase name.

Definition book : Book := {| resolve := fun path => "/docs/" +:+ path |}.

Definition topicPath : string := "guide/intro.adoc".

(** The base converter on a passthrough block, which is the kind that the
    examples hand to it: the content of the block as it is. *)
Definition baseConverter (node : Node) (transform : option string) (opts : option unit)
    : string :=
  getContent node.

(** The string of a node object: the kind between the marks of an
    object. *)
Definition nodeToString (node : Node) : string := "#<" +:+ getNodeName node +:+ ">".

Definition document : Document := {| doc_attributes := ∅ |}.

Definition noRows : Rows := {| head_rows := []; body_rows := []; foot_rows := [] |}.

(** A node of a kind, everything else empty. *)
Definition node (name : string) : Node :=
  {| getNodeName := name; getDocument := document; attributes := ∅;
     getTitle := EmptyString; getStyle := EmptyString; getLevel := 0;
     getTarget := None; getText := EmptyString; getType := EmptyString;
     getContent := EmptyString; getBlocks := []; getDlistRows := [];
     getRows := noRows |}.

(** An inline anchor with a target (or none), a role (or none) and a text. *)
Definition anchor (target role : option string) (text : string) : Node :=
  {| getNodeName := "inline_anchor"; getDocument := document;
     attributes := match role with Some r => {[ "role" := r ]} | None => ∅ end;
     getTitle := EmptyString; getStyle := EmptyString; getLevel := 0;
     getTarget := target; getText := text; getType := "link";
     getContent := EmptyString; getBlocks := []; getDlistRows := [];
     getRows := noRows |}.

(** A paragraph with a rendered content. *)
Definition para (content : string) : Node :=
  {| getNodeName := "paragraph"; getDocument := document; attributes := ∅;
     getTitle := EmptyString; getStyle := EmptyString; getLevel := 0;
     getTarget := None; getText := EmptyString; getType := EmptyString;
     getContent := content; getBlocks := []; getDlistRows := [];
     getRows := noRows |}.

(** A list item with a text, a content and blocks. *)
Definition item (text content : string) (blocks : list Node) : Node :=
  {| getNodeName := "list_item"; getDocument := document; attributes := ∅;
     getTitle := EmptyString; getStyle := EmptyString; getLevel := 0;
     getTarget := None; getText := text; getType := EmptyString;
     getContent := content; getBlocks := blocks; getDlistRows := [];
     getRows := noRows |}.

(** A section with a level, a title and blocks. *)
Definition sect (level : Z) (title : string) (blocks : list Node) : Node :=
  {| getNodeName := "section"; getDocument := document; attributes := ∅;
     getTitle := title; getStyle := EmptyString; getLevel := level;
     getTarget := None; getText := EmptyString; getType := EmptyString;
     getContent := EmptyString; getBlocks := blocks; getDlistRows := [];
     getRows := noRows |}.

(** A table with a title and rows. *)
Definition tbl (title : string) (rows : Rows) : Node :=
  {| getNodeName := "table"; getDocument := document; attributes := ∅;
     getTitle := title; getStyle := EmptyString; getLevel := 0;
     getTarget := None; getText := EmptyString; getType := EmptyString;
     getContent := EmptyString; getBlocks := []; getDlistRows := [];
     getRows := rows |}.

(** A passthrough block with its lines, and the document around blocks
    that have rendered as [content]. *)
Definition pass (content : string) : Node :=
  {| getNodeName := "pass"; getDocument := document; attributes := ∅;
     getTitle := EmptyString; getStyle := EmptyString; getLevel := 0;
     getTarget := None; getText := EmptyString; getType := EmptyString;
     getContent := content; getBlocks := []; getDlistRows := [];
     getRows := noRows |}.

Definition documentNode (content : string) (blocks : list Node) : Node :=
  {| getNodeName := "document"; getDocument := document; attributes := ∅;
     getTitle := EmptyString; getStyle := EmptyString; getLevel := 0;
     getTarget := None; getText := EmptyString; getType := EmptyString;
     getContent := content; getBlocks := blocks; getDlistRows := [];
     getRows := noRows |}.

(** The converter's methods at these parameters. *)
Definition convert :=
  convert className book topicPath UrlModel.api nodeToString baseConverter.
Definition convertBlock :=
  convertBlock className book topicPath UrlModel.api nodeToString baseConverter.
Definition inline_anchor := inline_anchor className book topicPath UrlModel.api.

(** *** The libraries around the converter, on one kind of document

    The lines between two [++++] lines are a passthrough block: the
    processor hands them to the converter as a node of kind [pass], and
    the document around the block as [embedded]. *)

(** The lines of a document that is one passthrough block. *)
Definition passthroughLines (content : string) : option string :=
  let fence := "++++" in
  if Js.startsWith content (fence +:+ Js.nl) && Js.endsWith content (Js.nl +:+ fence)
     && (10 <=? String.length content)%nat
  then Some (substring 5 (String.length content - 10) content)
  else None.

(** The processor with the [franklin] backend on such a document: it has
    the block converted, then the document, whose content is what the
    block rendered as. Every other document, and every other backend, is
    outside this instance, which reports it as an exception. *)
Definition asciidoctor (franklin : Node -> option string -> option unit -> M Content)
    (content : string) (rest : unit) (backend : string)
    (attributes : option (gmap string string)) : Exn + string :=
  let outside := inl (TypeError "a document outside the instance") in
  match passthroughLines content with
  | Some lines =>
      if negb (String.eqb backend "franklin") then outside
      else
        match franklin (pass lines) None None newConverter with
        | (inr block, st) =>
            let rendered := contentToString nodeToString block in
            match franklin (documentNode rendered [pass lines]) (Some "embedded") None st with
            | (inr html, _) => inr (contentToString nodeToString html)
            | (inl e, _) => inl e
            end
        | (inl e, _) => inl e
        end
  | None => outside
  end.

(** The kinds of element that the HTML parser treats alike, and the
    characters of a text without markup. *)
Definition plainTags : list string := ["main"; "div"; "p"; "ul"; "ol"].

Definition isTextChar (c : ascii) : bool :=
  UrlModel.isAlpha c || UrlModel.isDigit c || Ascii.eqb c " ".

(** [fromHtml] on a text that is one element of such a kind, without
    attributes, around a text without markup. Every other text is outside
    this instance, which hands it over as one text node. *)
Definition fromHtml (html : string) : HastRoot :=
  let outside := {| root_children := [HText html] |} in
  match html with
  | String "<" rest =>
      let '(tag, rest) := UrlModel.span (fun c => Ascii.eqb c ">") rest in
      match rest with
      | String _ rest =>
          let '(text, close) := UrlModel.span (fun c => Ascii.eqb c "<") rest in
          if existsb (String.eqb tag) plainTags
             && UrlModel.forallb_string isTextChar text
             && String.eqb close ("</" +:+ tag +:+ ">")
          then {| root_children :=
                    [HElement tag []
                       (if Js.truthy text then [HText text] else [])] |}
          else outside
      | EmptyString => outside
      end
  | _ => outside
  end.

(** [toHtml] on elements that have an end tag and no properties, and on
    texts without markup. *)
Fixpoint serialize (element : HastNode) : string :=
  match element with
  | HElement tagName _ children =>
      "<" +:+ tagName +:+ ">" +:+ Js.join EmptyString (map serialize children)
      +:+ "</" +:+ tagName +:+ ">"
  | HText value => value
  | HComment value => "<!--" +:+ value +:+ "-->"
  | HDoctype => "<!doctype html>"
  end.

Definition toHtml (tree : HastRoot) : string :=
  Js.join EmptyString (map serialize (root_children tree)).

Definition adoc2html :=
  adoc2html className UrlModel.api nodeToString unit baseConverter unit asciidoctor
    fromHtml toHtml.

(** The options of a call that names the book and the topic only. *)
Definition options : Options unit :=
  {| opt_backend := None; opt_attributes := None; opt_plain := None; opt_book := book;
     opt_topicPath := topicPath; opt_rest := tt |}.

End Example.

(** * The route: [worker/src/routes/docs.ts]

    The pure parts of the [Docs] route: where the source of a document is
    fetched from, and what the query string hands over to the converter.
    The fetch itself and the response are the platform's. *)

Module Route.

(** [s.substring(n)]: the string from position [n] on. *)
Definition substringFrom (n : nat) (s : string) : string :=
  substring n (String.length s - n) s.

(** The part of [ctx.env] that [resolveURL] reads. [DOC_REPO_ROOT_PATH] may
    be left out. *)
Record Env := mkEnv {
  DOC_UPSTREAM : string;
  DOC_REPO_OWNER : string;
  DOC_REPO_NAME : string;
  DOC_REPO_REF : string;
  DOC_REPO_ROOT_PATH : option string }.

(** The context of a request: the environment, and the path and the query
    parameters of [ctx.url], in the order of the query string. *)
Record Context := mkContext {
  env : Env;
  pathname : string;
  searchParams : list (string * string) }.

Definition resolveURL (path : string) (ctx : Context) : string :=
  let e := env ctx in
  let rootPath := default EmptyString (DOC_REPO_ROOT_PATH e) in
  let rootPath :=
    if Js.startsWith rootPath "/" then substringFrom 1 rootPath else rootPath in
  let rootPath :=
    if Js.endsWith rootPath "/" then Js.sliceEnd rootPath 1 else rootPath in
  let fullPath :=
    rootPath +:+ (if Js.truthy rootPath then "/" else EmptyString)
    +:+ (if Js.startsWith path "/" then substringFrom 1 path else path) in
  DOC_UPSTREAM e +:+ "/" +:+ DOC_REPO_OWNER e +:+ "/" +:+ DOC_REPO_NAME e +:+ "/"
  +:+ DOC_REPO_REF e +:+ "/" +:+ fullPath.

(** The context with another root path in its environment, or none. *)
Definition withRoot (root : option string) (ctx : Context) : Context :=
  {| env :=
       {| DOC_UPSTREAM := DOC_UPSTREAM (env ctx); DOC_REPO_OWNER := DOC_REPO_OWNER (env ctx);
          DOC_REPO_NAME := DOC_REPO_NAME (env ctx); DOC_REPO_REF := DOC_REPO_REF (env ctx);
          DOC_REPO_ROOT_PATH := root |};
     pathname := pathname ctx; searchParams := searchParams ctx |}.

(** [`${resolveURL(ctx.url.pathname, ctx)}.adoc`]. *)
Definition upstream (ctx : Context) : string :=
  resolveURL (pathname ctx) ctx +:+ ".adoc".

(** [s.split(sep)] for a separator of one character or more. The scan
    goes from left to right; [skip] is what is left to pass over of the
    separator found last. *)
Fixpoint splitFrom (sep : string) (skip : nat) (s : string) : list string :=
  match s with
  | EmptyString => [EmptyString]
  | String c s' =>
      match skip with
      | S k => splitFrom sep k s'
      | O =>
          if String.prefix sep s
          then EmptyString :: splitFrom sep (String.length sep - 1) s'
          else match splitFrom sep 0 s' with
               | x :: xs => String c x :: xs
               | [] => [String c EmptyString]
               end
      end
  end.

Definition splitOn (sep s : string) : list string := splitFrom sep 0 s.

(** The body of the [forEach] over the query parameters: a key that
    starts with [attr-] sets the attribute named by the second piece of
    [key.split('attr-')]. *)
Definition addAttribute (attributes : gmap string string) (entry : string * string)
    : gmap string string :=
  let '(key, val) := entry in
  if negb (Js.startsWith key "attr-") then attributes
  else
    let attr := Js.interp (nth_error (splitOn "attr-" key) 1) in
    (* [attributes] is an object literal: an assignment to [__proto__] goes
       to the setter that it inherits, which does nothing with a string *)
    if String.eqb attr "__proto__" then attributes
    else <[attr := val]> attributes.

(** The [attributes] object after the [forEach]: its own properties. *)
Definition collectAttributes (entries : list (string * string)) : gmap string string :=
  fold_left addAttribute entries ∅.

(** [url.searchParams.get(name)]: the first value under the name. *)
Fixpoint searchGet (name : string) (entries : list (string * string)) : option string :=
  match entries with
  | [] => None
  | (key, val) :: rest => if String.eqb key name then Some val else searchGet name rest
  end.

(** [url.searchParams.get('backend') ?? 'franklin']. *)
Definition backend (ctx : Context) : string :=
  default "franklin" (searchGet "backend" (searchParams ctx)).

End Route.

(** * Vocabulary of the further properties *)

(** A string of white space only (the empty one too). *)
Fixpoint allSpaces (s : string) : bool :=
  match s with
  | EmptyString => true
  | String c s' => Js.isSpace c && allSpaces s'
  end.

(** The entries of a description-list column, from left to right. *)
Fixpoint dlistEntries (col : DlistCol) : list string :=
  match col with
  | DlistEntry text => [text]
  | DlistArray cols => List.concat (map dlistEntries cols)
  end.

(** An [ol] or [ul] element of the hast tree. *)
Definition isListElement (element : HastNode) : bool :=
  match element with
  | HElement tagName _ _ => String.eqb tagName "ol" || String.eqb tagName "ul"
  | _ => false
  end.

(** A list item that has neither text nor content. *)
Definition emptyListItem (block : Node) : Prop :=
  getNodeName block = "list_item"
  /\ getText block = EmptyString /\ getContent block = EmptyString.

(** An ASCII capital letter. *)
Definition isUpper (c : ascii) : bool :=
  let n := nat_of_ascii c in ((65 <=? n) && (n <=? 90))%nat.

(** A method that, when it returns, leaves a document reference set. *)
Definition leavesDoc {A} (m : M A) : Prop :=
  forall st,
    match m st with
    | (inr _, st') => is_Some (doc st) -> is_Some (doc st')
    | (inl _, _) => True
    end.

(** * Properties *)

(** ** Hostname normalisation *)

Lemma lowerChar_isHyphen (c : ascii) : isHyphen (Js.lowerChar c) = isHyphen c.
Proof. destruct c as [[] [] [] [] [] [] [] []]; reflexivity. Qed.

Lemma lowerChar_idem (c : ascii) : Js.lowerChar (Js.lowerChar c) = Js.lowerChar c.
Proof. destruct c as [[] [] [] [] [] [] [] []]; reflexivity. Qed.

Lemma toLowerCase_idem (s : string) :
  Js.toLowerCase (Js.toLowerCase s) = Js.toLowerCase s.
Proof.
  induction s as [|c s IH]; simpl; [reflexivity|].
  now rewrite lowerChar_idem, IH.
Qed.

Lemma toLowerCase_app (a b : string) :
  Js.toLowerCase (a +:+ b) = Js.toLowerCase a +:+ Js.toLowerCase b.
Proof. induction a as [|c a IH]; simpl; [reflexivity | now rewrite IH]. Qed.

Lemma toLowerCase_flushRun (run : nat) : Js.toLowerCase (flushRun run) = flushRun run.
Proof. destruct run as [|[|run]]; reflexivity. Qed.

(** Lower-casing moves no hyphen, so it commutes with the collapse. *)
Lemma collapseFrom_toLowerCase (s : string) :
  forall run, collapseFrom run (Js.toLowerCase s) = Js.toLowerCase (collapseFrom run s).
Proof.
  induction s as [|c s IH]; intros run; simpl.
  - now rewrite toLowerCase_flushRun.
  - rewrite lowerChar_isHyphen. destruct (isHyphen c).
    + apply IH.
    + rewrite toLowerCase_app, toLowerCase_flushRun. simpl. now rewrite IH.
Qed.

(** A pending run followed by another character is written as it is. *)
Lemma collapseFrom_flushRun (run : nat) (c : ascii) (t : string) :
  isHyphen c = false ->
  collapseFrom 0 (flushRun run +:+ String c t) = flushRun run +:+ String c (collapseFrom 0 t).
Proof.
  intros Hc. destruct run as [|[|run]]; simpl; rewrite Hc; reflexivity.
Qed.

(** After one collapse no run of three hyphens is left. *)
Lemma collapseFrom_idem (s : string) :
  forall run, collapseFrom 0 (collapseFrom run s) = collapseFrom run s.
Proof.
  induction s as [|c s IH]; intros run; simpl.
  - destruct run as [|[|run]]; reflexivity.
  - destruct (isHyphen c) eqn:Hc.
    + apply IH.
    + rewrite collapseFrom_flushRun by exact Hc. now rewrite IH.
Qed.

(** The scan is the replacement of [/-{3,}/g] by two hyphens: a maximal
    run of three or more hyphens is written as two, a shorter run and any
    other character as they are. *)
Lemma collapseFrom_run (n run : nat) (rest : string) :
  collapseFrom run (hyphens n +:+ rest) = collapseFrom (n + run) rest.
Proof.
  revert run. induction n as [|n IH]; intros run; [reflexivity|].
  change (collapseFrom (S run) (hyphens n +:+ rest) = collapseFrom (S n + run) rest).
  rewrite IH. f_equal. lia.
Qed.

Lemma collapseHyphenRuns_other (c : ascii) (rest : string) :
  isHyphen c = false ->
  collapseHyphenRuns (String c rest) = String c (collapseHyphenRuns rest).
Proof. intros Hc. unfold collapseHyphenRuns. simpl. now rewrite Hc. Qed.

Lemma collapseHyphenRuns_long_run (n : nat) (c : ascii) (rest : string) :
  (3 <= n)%nat -> isHyphen c = false ->
  collapseHyphenRuns (hyphens n +:+ String c rest)
  = "--" +:+ String c (collapseHyphenRuns rest).
Proof.
  intros Hn Hc. unfold collapseHyphenRuns. rewrite collapseFrom_run.
  simpl. rewrite Hc, Nat.add_0_r.
  destruct n as [|[|[|n]]]; try lia. reflexivity.
Qed.

Lemma collapseHyphenRuns_short_run (n : nat) (c : ascii) (rest : string) :
  (n < 3)%nat -> isHyphen c = false ->
  collapseHyphenRuns (hyphens n +:+ String c rest)
  = hyphens n +:+ String c (collapseHyphenRuns rest).
Proof.
  intros Hn Hc. unfold collapseHyphenRuns. rewrite collapseFrom_run.
  simpl. rewrite Hc, Nat.add_0_r.
  destruct n as [|[|[|n]]]; try lia; reflexivity.
Qed.

Lemma collapseHyphenRuns_final_run (n : nat) :
  collapseHyphenRuns (hyphens n) = if (3 <=? n)%nat then "--" else hyphens n.
Proof.
  unfold collapseHyphenRuns.
  assert (Hnil : hyphens n = hyphens n +:+ EmptyString).
  { induction n as [|n IH]; [reflexivity|].
    change (String "-" (hyphens n) = String "-" (hyphens n +:+ EmptyString)).
    now rewrite <- IH. }
  rewrite Hnil at 1. rewrite collapseFrom_run, Nat.add_0_r.
  destruct n as [|[|[|n]]]; reflexivity.
Qed.

(** C7. The hostname normalisation of [inline_anchor] (runs of three or
    more hyphens collapsed to two, then lower case) is idempotent: on every
    string, applying it twice gives what applying it once gives. *)
Theorem normalizeHostname_idempotent (hostname : string) :
  normalizeHostname (normalizeHostname hostname) = normalizeHostname hostname.
Proof.
  unfold normalizeHostname, collapseHyphenRuns.
  rewrite collapseFrom_toLowerCase, collapseFrom_idem.
  apply toLowerCase_idem.
Qed.

(** ** The inline anchor *)

Lemma strict_eq_false (o : option string) (lit : string) :
  o <> Some lit -> Js.strict_eq o lit = false.
Proof.
  intros Hne. destruct o as [s|]; [|reflexivity]. simpl.
  destruct (String.eqb_spec s lit) as [->|]; [now elim Hne | reflexivity].
Qed.

Section InlineAnchor.

Variable toClassName : string -> string.
Variable book : Book.
Variable topicPath : string.

(** The rewriting of the target of scenario 2, on the URL instance: the
    suffix goes, the host name is lower-cased, and the path is kept. *)
Lemma rewriteTarget_scenario2 :
  rewriteTarget UrlModel.api "https://Example.com/a---b.franklin"
  = "https://example.com/a---b".
Proof. vm_compute. reflexivity. Qed.

(** A run of hyphens in the host name is collapsed. *)
Lemma rewriteTarget_host_run :
  rewriteTarget UrlModel.api "https://My---Host.example.com/a---b.franklin"
  = "https://my--host.example.com/a---b".
Proof. vm_compute. reflexivity. Qed.

(** A target that is no URL is only stripped of the suffix. *)
Lemma rewriteTarget_relative :
  rewriteTarget UrlModel.api "../other/topic.franklin" = "../other/topic".
Proof. vm_compute. reflexivity. Qed.

(** C1 (as amended). For a non-include inline anchor whose target is
    [https://Example.com/a---b.franklin], the renderer returns an anchor
    whose [href] is exactly [https://example.com/a---b]: the [.franklin]
    suffix is stripped and the host name is lower-cased; the run of three
    hyphens is in the path, not in the host name, and stays as it is. *)
Theorem inline_anchor_scenario2 (node : Node) (st : FranklinConverter) :
  getTarget node = Some "https://Example.com/a---b.franklin" ->
  getRole node <> Some "bare include" ->
  inline_anchor toClassName book topicPath UrlModel.api node st
  = (inr ("<a href=" +:+ Js.dq +:+ "https://example.com/a---b" +:+ Js.dq +:+ ">"
          +:+ getText node +:+ "</a>"), st).
Proof.
  intros Htarget Hrole. apply strict_eq_false in Hrole. unfold inline_anchor.
  rewrite Htarget, Hrole.
  change (Js.truthy "https://Example.com/a---b.franklin") with true.
  cbv iota. rewrite rewriteTarget_scenario2. reflexivity.
Qed.

(** An empty target is falsy: nothing is stripped or parsed, and the
    [href] is empty. *)
Lemma inline_anchor_empty_target (node : Node) (st : FranklinConverter) (URL : UrlApi) :
  getTarget node = Some EmptyString ->
  getRole node <> Some "bare include" ->
  inline_anchor toClassName book topicPath URL node st
  = (inr ("<a href=" +:+ Js.dq +:+ Js.dq +:+ ">" +:+ getText node +:+ "</a>"), st).
Proof.
  intros Htarget Hrole. apply strict_eq_false in Hrole.
  unfold inline_anchor. rewrite Htarget, Hrole. reflexivity.
Qed.

(** C10 (the code at the failing input). For a non-include inline anchor
    without a target, [getTarget()] is [undefined]: the renderer skips the
    suffix and the URL, raises nothing, and interpolates [undefined] into
    the template, so that the [href] is the text [undefined], not empty. *)
Theorem inline_anchor_absent_target (node : Node) (st : FranklinConverter) (URL : UrlApi) :
  getTarget node = None ->
  getRole node <> Some "bare include" ->
  inline_anchor toClassName book topicPath URL node st
  = (inr ("<a href=" +:+ Js.dq +:+ "undefined" +:+ Js.dq +:+ ">"
          +:+ getText node +:+ "</a>"), st).
Proof.
  intros Htarget Hrole. apply strict_eq_false in Hrole.
  unfold inline_anchor. rewrite Htarget, Hrole. reflexivity.
Qed.

End InlineAnchor.

(** C1, as the claim states it, fails: the [href] of scenario 2 is not
    [https://example.com/a--b]. *)
Lemma inline_anchor_scenario2_href_not_collapsed :
  Example.inline_anchor
    (Example.anchor (Some "https://Example.com/a---b.franklin") None "text") newConverter
  <> (inr ("<a href=" +:+ Js.dq +:+ "https://example.com/a--b" +:+ Js.dq +:+ ">text</a>"),
      newConverter).
Proof. vm_compute. intros H. discriminate H. Qed.

(** Scenario 2 on a link with no role and the text [text]. *)
Lemma inline_anchor_scenario2_witness :
  Example.inline_anchor
    (Example.anchor (Some "https://Example.com/a---b.franklin") None "text") newConverter
  = (inr ("<a href=" +:+ Js.dq +:+ "https://example.com/a---b" +:+ Js.dq +:+ ">text</a>"),
     newConverter).
Proof.
  apply (inline_anchor_scenario2 Example.className Example.book Example.topicPath
           (Example.anchor (Some "https://Example.com/a---b.franklin") None "text")
           newConverter); [reflexivity | vm_compute; discriminate].
Defined.

(** A link with neither target nor role. *)
Lemma inline_anchor_absent_target_witness :
  Example.inline_anchor (Example.anchor None None "text") newConverter
  = (inr ("<a href=" +:+ Js.dq +:+ "undefined" +:+ Js.dq +:+ ">text</a>"), newConverter).
Proof.
  apply (inline_anchor_absent_target Example.className Example.book Example.topicPath
           (Example.anchor None None "text") newConverter UrlModel.api);
    [reflexivity | vm_compute; discriminate].
Defined.

(** ** Blocks, tables, lists and the dispatcher *)

Lemma truthy_true (s : string) : Js.truthy s = true <-> s <> EmptyString.
Proof. destruct s; simpl; split; intros H; auto; try discriminate; now elim H. Qed.

Lemma append_assoc (a b c : string) : (a +:+ b) +:+ c = a +:+ (b +:+ c).
Proof.
  induction a as [|x a IH]; [reflexivity|].
  change (String x ((a +:+ b) +:+ c) = String x (a +:+ (b +:+ c))). now rewrite IH.
Qed.

Lemma append_nil_r (a : string) : a +:+ EmptyString = a.
Proof.
  induction a as [|x a IH]; [reflexivity|].
  change (String x (a +:+ EmptyString) = String x a). now rewrite IH.
Qed.

Lemma truthy_false (s : string) : Js.truthy s = false <-> s = EmptyString.
Proof. destruct s; simpl; split; intros H; auto; discriminate. Qed.

Section ConverterProperties.

Variable toClassName : string -> string.
Variable book : Book.
Variable topicPath : string.
Variable URL : UrlApi.
Variable nodeToString : Node -> string.
Variable Opts : Type.
Variable baseConverter : Node -> option string -> option Opts -> string.

Abbreviation convert :=
  (convert toClassName book topicPath URL nodeToString baseConverter).
Abbreviation convertBlock :=
  (convertBlock toClassName book topicPath URL nodeToString baseConverter).
Abbreviation tableToBlock := (tableToBlock toClassName).
Abbreviation tableToTableBlock := (tableToTableBlock toClassName).
Abbreviation table := (table toClassName).
Abbreviation olist := (olist toClassName).

(** The body of [convert]. *)
Lemma convert_unfold (node : Node) (transform : option string) (opts : option Opts) :
  convert node transform opts =
  (let name := effectiveName node transform in
   log LogDebug
     [LogStr ("convert node: transform=" +:+ Js.interp transform +:+ " name=" +:+ name)] ;;
   modify (set_doc (getDocument node)) ;;
   match templates name with
   | Some (Own template) =>
       content <- runTemplate toClassName book topicPath URL convertBlock template node ;;
       ret (Str content)
   | Some (Inherited member) => callInherited member node
   | None =>
       log LogWarn [LogStr "handling node with base template..."; LogStr name] ;;
       let defaultContent := baseConverter node transform opts in
       log LogInfo
         [LogStr "handled node with base template: "; LogStr name; LogNode node;
          LogStr defaultContent] ;;
       ret (Str defaultContent)
   end)%conv.
Proof. destruct node; reflexivity. Qed.

(** A block is never the empty string: it opens with a line break. *)
Lemma makeBlock_starts_with_newline (name content : string) (variants : list string)
    (singleCell : bool) :
  exists rest, makeBlock toClassName name content variants singleCell = String "010" rest.
Proof. unfold makeBlock. simpl. eauto. Qed.

Lemma makeBlock_truthy (name content : string) (variants : list string) (singleCell : bool) :
  Js.truthy (makeBlock toClassName name content variants singleCell) = true.
Proof.
  destruct (makeBlock_starts_with_newline name content variants singleCell) as [rest ->].
  reflexivity.
Qed.

(** A kind that is neither a key of the [templates] object nor a name
    that it inherits is handed to the base converter: [convert] does not
    raise, logs the fallback and returns the base converter's string
    unchanged. The kind is the transform when one is given, whatever the
    node's own kind, and the node's kind otherwise. *)
Lemma convert_falls_back (node : Node) (transform : option string)
    (opts : option Opts) (st : FranklinConverter) (name : string) :
  name = match transform with
         | Some kind => if Js.truthy kind then kind else getNodeName node
         | None => getNodeName node
         end ->
  templates name = None ->
  convert node transform opts st =
  (inr (Str (baseConverter node transform opts)),
   {| sectionDepth := sectionDepth st;
      inSection := inSection st;
      doc := Some (getDocument node);
      console :=
        console st ++
        [ mkLog LogDebug
            [LogStr ("convert node: transform=" +:+ Js.interp transform +:+ " name="
                     +:+ name)];
          mkLog LogWarn [LogStr "handling node with base template..."; LogStr name];
          mkLog LogInfo
            [LogStr "handled node with base template: "; LogStr name; LogNode node;
             LogStr (baseConverter node transform opts)] ] |}).
Proof.
  intros Hname Hnone.
  assert (Heff : effectiveName node transform = name).
  { subst name. unfold effectiveName. destruct transform as [kind|]; [|reflexivity].
    simpl. destruct (Js.truthy kind); reflexivity. }
  rewrite convert_unfold. cbv zeta. rewrite Heff, Hnone.
  unfold bind, log, modify, ret, set_doc. cbn.
  rewrite <- !app_assoc. reflexivity.
Qed.

(** A kind that names a member of [Object.prototype] has no template
    either, but the lookup finds the member and [convert] calls it: there
    is no fallback. *)
Lemma convert_inherited (node : Node) (transform : option string)
    (opts : option Opts) (st : FranklinConverter) (member : ObjectMember) :
  templates (effectiveName node transform) = Some (Inherited member) ->
  convert node transform opts st = callInherited member node (entered node transform st).
Proof.
  intros Hmember. rewrite convert_unfold. cbv zeta. rewrite Hmember. reflexivity.
Qed.


(** The same through the node's own kind, and the two inherited members
    that return: [toString] answers with the class of [undefined], and
    [constructor] hands the node back. *)
Lemma convert_inherited_kinds (node : Node) (opts : option Opts) (st : FranklinConverter) :
  (getNodeName node = "valueOf" ->
   exists message, fst (convert node None opts st) = inl (TypeError message))
  /\ fst (convert node (Some "__proto__") opts st) = inl (TypeError "template is not a function")
  /\ fst (convert node (Some "toString") opts st) = inr (Str "[object Undefined]")
  /\ fst (convert node (Some "constructor") opts st) = inr (Obj node).
Proof.
  split; [|split; [|split]].
  - intros Hname. eexists.
    rewrite (convert_inherited node None opts st O_valueOf).
    + reflexivity.
    + unfold effectiveName. cbn [Js.truthy_opt]. rewrite Hname. reflexivity.
  - now rewrite (convert_inherited node (Some "__proto__") opts st O_proto).
  - now rewrite (convert_inherited node (Some "toString") opts st O_toString).
  - now rewrite (convert_inherited node (Some "constructor") opts st O_constructor).
Qed.

(** C5. An ordered list whose [role] attribute is [procedure] renders as
    its [<ol>] list inside a single-cell block named [procedure]; with any
    other role, or none, it renders as the bare list (the empty string when
    no item renders), which is no block. *)
Theorem olist_procedure_wrapping (node : Node) (st : FranklinConverter) :
  match mapM convertBlock (getBlocks node) st with
  | (inr rendered, st') =>
      let content := Js.join EmptyString rendered in
      let list := if Js.truthy content then "<ol>" +:+ content +:+ "</ol>" else EmptyString in
      (getAttribute node "role" = Some "procedure" ->
       olist convertBlock node st =
       (inr (Js.nli 6 +:+ "<div class=" +:+ Js.dq +:+ toClassName "procedure" +:+ Js.dq +:+ ">"
             +:+ Js.nli 8 +:+ "<div><div>" +:+ Js.nl +:+ Js.trim list +:+ Js.nl
             +:+ "</div></div>"
             +:+ Js.nli 6 +:+ "</div>"), st'))
      /\ (getAttribute node "role" <> Some "procedure" ->
          olist convertBlock node st = (inr list, st')
          /\ forall name body variants singleCell,
               list <> makeBlock toClassName name body variants singleCell)
  | (inl e, st') => olist convertBlock node st = (inl e, st')
  end.
Proof.
  unfold olist, bind.
  destruct (mapM convertBlock (getBlocks node) st) as [[e|rendered] st']; [reflexivity|].
  cbv zeta. split.
  - intros Hrole. rewrite Hrole. reflexivity.
  - intros Hrole.
    assert (Hne : Js.strict_eq (getAttribute node "role") "procedure" = false).
    { destruct (getAttribute node "role") as [r|] eqn:Hr; [|reflexivity].
      simpl. destruct (String.eqb_spec r "procedure") as [->|]; [now elim Hrole|reflexivity]. }
    rewrite Hne. split; [reflexivity|].
    intros name body variants singleCell Heq.
    destruct (makeBlock_starts_with_newline name body variants singleCell) as [rest Hrest].
    rewrite Hrest in Heq.
    destruct (Js.truthy (Js.join EmptyString rendered)); discriminate Heq.
Qed.

(** C9. A table with a non-empty title and no head row always takes the
    titled path: [tableToBlock] under the title returns a block, whose
    class name comes from the title and which is never the empty string,
    and [table] returns that block; the fall through to the block named
    [table] is not taken. *)
Theorem table_titled_headless (node : Node) (st : FranklinConverter) :
  getTitle node <> EmptyString ->
  getHeadRows node = [] ->
  table node st = (inr (tableToBlock (getTitle node) node), st)
  /\ tableToBlock (getTitle node) node <> EmptyString
  /\ tableToBlock (getTitle node) node
     = Js.nli 6 +:+ "<div class=" +:+ Js.dq +:+ toClassName (getTitle node)
         +:+ variantSuffix toClassName ["headless"] +:+ Js.dq +:+ ">"
       +:+ Js.nli 8 +:+ Js.trim (tableContent node)
       +:+ Js.nli 6 +:+ "</div>".
Proof.
  intros Htitle Hhead. unfold table.
  apply truthy_true in Htitle. rewrite Htitle, Hhead. cbn.
  unfold tableToBlock at 1. rewrite makeBlock_truthy. split; [reflexivity|].
  split.
  - apply truthy_true. apply makeBlock_truthy.
  - unfold tableToBlock, makeBlock, tableVariants.
    unfold getHeadRows in Hhead. rewrite Hhead. reflexivity.
Qed.

(** A table with a head row, or without a title, is a block named [table]. *)
Lemma table_generic (node : Node) (st : FranklinConverter) :
  getTitle node = EmptyString \/ getHeadRows node <> [] ->
  table node st = (inr (tableToTableBlock node), st).
Proof.
  intros [Htitle|Hhead]; unfold table.
  - rewrite Htitle. reflexivity.
  - destruct (getHeadRows node); [now elim Hhead|].
    cbn. rewrite andb_false_r. reflexivity.
Qed.

(** C6. Provided [toClassName] maps the empty string to the empty string
    and [headless] to itself: the block that [tableToBlock] returns has
    the class [headless] after its name when the table has no head row, and
    no class after its name otherwise; so [headless] is among the variant
    classes if and only if the table has zero head rows. *)
Theorem tableToBlock_headless (name : string) (node : Node) :
  toClassName EmptyString = EmptyString ->
  toClassName "headless" = "headless" ->
  tableToBlock name node =
    Js.nli 6 +:+ "<div class=" +:+ Js.dq +:+ toClassName name
      +:+ match head_rows (getRows node) with
          | [] => " headless"
          | _ :: _ => EmptyString
          end
      +:+ Js.dq +:+ ">"
    +:+ Js.nli 8 +:+ Js.trim (tableContent node)
    +:+ Js.nli 6 +:+ "</div>"
  /\ (In "headless" (classTokens (variantSuffix toClassName (tableVariants node)))
      <-> head_rows (getRows node) = []).
Proof.
  intros Hempty Hheadless.
  unfold tableToBlock, makeBlock, tableVariants, variantSuffix.
  destruct (head_rows (getRows node)) as [|row rows]; cbn [map Js.join String.concat].
  - rewrite Hheadless. split; [reflexivity|].
    split; [reflexivity|]. intros _. vm_compute. now left.
  - rewrite Hempty. split; [reflexivity|].
    split; [intros [] | discriminate].
Qed.

(** *** List items *)

(** An item without text and without content is dropped. *)
Lemma list_item_empty (node : Node) (st : FranklinConverter) :
  getText node = EmptyString -> getContent node = EmptyString ->
  list_item convertBlock node st = (inr EmptyString, st).
Proof. intros Ht Hc. unfold list_item. rewrite Ht, Hc. reflexivity. Qed.

(** An item with a text: the text as a paragraph, then the rendered blocks
    or, when they render as nothing, the item's content. *)
Lemma list_item_with_text (node : Node) (st : FranklinConverter) :
  getText node <> EmptyString ->
  match mapM convertBlock (getBlocks node) st with
  | (inr rendered, st') =>
      let content := Js.join EmptyString rendered in
      list_item convertBlock node st =
      (inr ("<li><p>" +:+ getText node +:+ "</p>"
            +:+ (if Js.truthy content then content else getContent node) +:+ "</li>"), st')
  | (inl e, st') => list_item convertBlock node st = (inl e, st')
  end.
Proof.
  intros Ht. apply truthy_true in Ht. unfold list_item, bind. rewrite Ht. cbn.
  destruct (mapM convertBlock (getBlocks node) st) as [[e|rendered] st']; [reflexivity|].
  cbv zeta. unfold orElse. rewrite Ht.
  unfold ret. do 2 f_equal.
  destruct (Js.truthy (Js.join EmptyString rendered)) eqn:Hc; cbn.
  - rewrite Hc. now rewrite !append_assoc.
  - rewrite !append_assoc.
    destruct (Js.truthy (getContent node)) eqn:Hb; [reflexivity|].
    apply truthy_false in Hb. rewrite Hb. reflexivity.
Qed.

(** C2 (the code at the failing input). A list item with content but no
    text is not dropped, yet none of its content is rendered: the [<li>]
    is empty, whatever the blocks render as. *)
Theorem list_item_content_without_text (node : Node) (st : FranklinConverter) :
  getText node = EmptyString ->
  getContent node <> EmptyString ->
  match mapM convertBlock (getBlocks node) st with
  | (inr rendered, st') => list_item convertBlock node st = (inr "<li></li>", st')
  | (inl e, st') => list_item convertBlock node st = (inl e, st')
  end.
Proof.
  intros Ht Hc. apply truthy_true in Hc. unfold list_item, bind. rewrite Ht, Hc. cbn.
  destruct (mapM convertBlock (getBlocks node) st) as [[e|rendered] st']; reflexivity.
Qed.

End ConverterProperties.

(** ** Occurrences of a tag across a concatenation *)

Lemma append_cons (x : ascii) (a b : string) : String x a +:+ b = String x (a +:+ b).
Proof. reflexivity. Qed.

Lemma append_length (a b : string) :
  String.length (a +:+ b) = (String.length a + String.length b)%nat.
Proof.
  induction a as [|x a IH]; [reflexivity|].
  rewrite append_cons. simpl. now rewrite IH.
Qed.

Lemma prefix_nil (s : string) : String.prefix EmptyString s = true.
Proof. destruct s; reflexivity. Qed.

(** When [a] holds a whole [pat] or differs from it, what follows [a]
    does not matter. *)
Lemma prefix_app_decided (pat : string) :
  forall a b : string,
    String.prefix a pat = false \/ (String.length pat <= String.length a)%nat ->
    String.prefix pat (a +:+ b) = String.prefix pat a.
Proof.
  induction pat as [|p pat IH]; intros a b H; [now rewrite !prefix_nil|].
  destruct a as [|x a].
  - destruct H as [H|H]; [discriminate H | simpl in H; lia].
  - rewrite append_cons. simpl. destruct (ascii_dec p x) as [->|Hne]; [|reflexivity].
    apply IH. destruct H as [H|H].
    + left. simpl in H. destruct (ascii_dec x x) as [_|Hx]; [exact H | now elim Hx].
    + right. simpl in H. lia.
Qed.

Lemma count_app_l (pat a b : string) :
  noPartialMatch pat a = true ->
  countOccurrences pat (a +:+ b)
  = (countOccurrences pat a + countOccurrences pat b)%nat.
Proof.
  induction a as [|x a IH]; intros H; [reflexivity|].
  cbn [noPartialMatch] in H. apply andb_true_iff in H as [Hhere Hrest].
  rewrite append_cons. cbn [countOccurrences]. rewrite <- append_cons.
  rewrite prefix_app_decided.
  - rewrite (IH Hrest). cbn [countOccurrences]. lia.
  - apply negb_true_iff, andb_false_iff in Hhere as [Hp|Hl]; [now left|].
    right. apply Nat.ltb_ge in Hl. exact Hl.
Qed.

(** A character that [pat] does not have cannot be inside an occurrence. *)
Lemma prefix_app_absent (c : ascii) (post pat : string) :
  occursIn c pat = false ->
  forall a : string,
    String.prefix pat (a +:+ String c post) = String.prefix pat a.
Proof.
  induction pat as [|p pat IH]; intros Hc a; [now rewrite !prefix_nil|].
  cbn [occursIn] in Hc. apply orb_false_iff in Hc as [Hp Hc].
  destruct a as [|x a].
  - simpl. destruct (ascii_dec p c) as [->|_]; [|reflexivity].
    now rewrite Ascii.eqb_refl in Hp.
  - rewrite append_cons. simpl. destruct (ascii_dec p x); [|reflexivity].
    now apply IH.
Qed.

Lemma count_app_r (pat a post : string) (c : ascii) :
  occursIn c (patternTail pat) = false ->
  countOccurrences pat (a +:+ String c post)
  = (countOccurrences pat a + countOccurrences pat (String c post))%nat.
Proof.
  intros Hc. set (k := countOccurrences pat (String c post)).
  induction a as [|x a IH]; [reflexivity|].
  rewrite append_cons. cbn [countOccurrences]. rewrite IH.
  assert (Hp : String.prefix pat (String x (a +:+ String c post))
               = String.prefix pat (String x a)).
  { destruct pat as [|p pat]; [reflexivity|].
    cbn [patternTail] in Hc.
    simpl. destruct (ascii_dec p x); [|reflexivity].
    now apply prefix_app_absent. }
  rewrite Hp. lia.
Qed.

(** A string between an opening and a closing tag: each tag occurs once
    more than inside. *)
Lemma count_div_wrapped (content : string) :
  countOccurrences "<div>" ("<div>" +:+ content +:+ "</div>")
  = S (countOccurrences "<div>" content)
  /\ countOccurrences "</div>" ("<div>" +:+ content +:+ "</div>")
     = S (countOccurrences "</div>" content).
Proof.
  split.
  - rewrite count_app_l by reflexivity.
    rewrite count_app_r by reflexivity.
    change (countOccurrences "<div>" "<div>") with 1%nat.
    change (countOccurrences "<div>" "</div>") with 0%nat. lia.
  - rewrite count_app_l by reflexivity.
    rewrite count_app_r by reflexivity.
    change (countOccurrences "</div>" "<div>") with 0%nat.
    change (countOccurrences "</div>" "</div>") with 1%nat. lia.
Qed.

(** ** The section depth is a stack discipline *)

(** Induction on a node, with the property known of its blocks. *)
Lemma Node_blocks_ind (P : Node -> Prop) :
  (forall node, Forall P (getBlocks node) -> P node) -> forall node, P node.
Proof.
  intros step. fix IH 1. intros node. apply step.
  destruct node as [? ? ? ? ? ? ? ? ? ? blocks ? ?]. cbn [getBlocks].
  induction blocks as [|block blocks IHblocks]; constructor.
  - apply IH.
  - exact IHblocks.
Qed.
















Section SectionDepth.

Variable toClassName : string -> string.
Variable book : Book.
Variable topicPath : string.
Variable URL : UrlApi.
Variable nodeToString : Node -> string.
Variable Opts : Type.
Variable baseConverter : Node -> option string -> option Opts -> string.

Abbreviation convert :=
  (convert toClassName book topicPath URL nodeToString baseConverter).
Abbreviation convertBlock :=
  (convertBlock toClassName book topicPath URL nodeToString baseConverter).
Abbreviation runTemplate := (runTemplate toClassName book topicPath URL).







(** Inside another section the renderer first closes the container that
    is open, and leaves its own open, as the depth tells it to. *)
Lemma section_nested_shape (node : Node) (st : FranklinConverter) :
  0 < sectionDepth st ->
  match mapM convertBlock (getBlocks node) (set_sectionDepth (sectionDepth st + 1) st) with
  | (inr rendered, st1) =>
      fst (section convertBlock node st)
      = inr ("</div><div>" +:+ sectionContent node rendered)
  | (inl e, _) => fst (section convertBlock node st) = inl e
  end.
Proof.
  intros Hpos. unfold section, bind, gets, modify, ret.
  apply Z.ltb_lt in Hpos. rewrite Hpos.
  destruct (mapM convertBlock (getBlocks node) _) as [[e|rendered] st1]; [reflexivity|].
  cbn. now rewrite append_nil_r.
Qed.

End SectionDepth.

(** A section of two paragraphs at depth 0: one [<div>], one [</div>]. *)
Lemma section_of_paragraphs :
  let out :=
    fst (Example.convert
           (Example.sect 1 "Title" [Example.para "one"; Example.para "two"])
           None None newConverter) in
  out = inr (Str ("<div>" +:+ Js.nli 10 +:+ "<h2>Title</h2>"
                  +:+ Js.nli 10 +:+ "<p>one</p>" +:+ Js.nl +:+ "<p>two</p>" +:+ "</div>"))
  /\ (forall s, out = inr (Str s) ->
        countOccurrences "<div>" s = 1%nat /\ countOccurrences "</div>" s = 1%nat).
Proof.
  cbv zeta. split; [vm_compute; reflexivity|].
  intros s Hs. vm_compute in Hs. injection Hs as <-. split; vm_compute; reflexivity.
Qed.


(** ** The page around the content *)






Section Adoc2htmlProperties.

Variable toClassName : string -> string.
Variable URL : UrlApi.
Variable nodeToString : Node -> string.
Variable Opts : Type.
Variable baseConverter : Node -> option string -> option Opts -> string.
Variable ProcessorOptions : Type.
Variable AsciiDoctor_convert :
  (Node -> option string -> option Opts -> M Content) ->
  string -> ProcessorOptions -> string -> option (gmap string string) -> Exn + string.
Variable fromHtml : string -> HastRoot.
Variable toHtml : HastRoot -> string.

Abbreviation adoc2html :=
  (adoc2html toClassName URL nodeToString Opts baseConverter ProcessorOptions
     AsciiDoctor_convert fromHtml toHtml).
Abbreviation convertedHtml :=
  (convertedHtml toClassName URL nodeToString Opts baseConverter ProcessorOptions
     AsciiDoctor_convert).
Abbreviation contentTree := (contentTree fromHtml).


(** A top-level list is wrapped in a [div]; anything else is kept. *)
Lemma wrapListElement_list (tagName : string) (properties : list (string * string))
    (children : list HastNode) :
  tagName = "ol" \/ tagName = "ul" ->
  wrapListElement (HElement tagName properties children)
  = HElement "div" [] [HElement tagName properties children].
Proof. intros [-> | ->]; reflexivity. Qed.

End Adoc2htmlProperties.

(** ** The theorems at concrete nodes *)

(** A passthrough block has no template: the base converter renders it.
    A transform decides before the node's kind does: a paragraph asked for
    as [outline] goes to the base converter too, although paragraphs have
    a template. *)
Lemma convert_falls_back_examples :
  fst (Example.convert (Example.pass "<b>x</b>") None None newConverter)
  = inr (Str "<b>x</b>")
  /\ fst (Example.convert (Example.para "text") (Some "outline") None newConverter)
     = inr (Str "text")
  /\ fst (Example.convert (Example.para "text") None None newConverter)
     = inr (Str "<p>text</p>").
Proof.
  unfold Example.convert. split; [|split].
  - rewrite (convert_falls_back Example.className Example.book Example.topicPath
               UrlModel.api Example.nodeToString unit Example.baseConverter
               (Example.pass "<b>x</b>") None None newConverter "pass"); reflexivity.
  - rewrite (convert_falls_back Example.className Example.book Example.topicPath
               UrlModel.api Example.nodeToString unit Example.baseConverter
               (Example.para "text") (Some "outline") None newConverter "outline");
      reflexivity.
  - vm_compute. reflexivity.
Qed.


(** A titled table of one body row and no head row. *)
Lemma table_titled_headless_witness :
  let node :=
    Example.tbl "Limits"
      {| head_rows := []; body_rows := [[mkCell "cpu"; mkCell "4"]]; foot_rows := [] |} in
  table Example.className node newConverter
  = (inr (tableToBlock Example.className "Limits" node), newConverter)
  /\ tableToBlock Example.className "Limits" node
     = Js.nli 6 +:+ "<div class=" +:+ Js.dq +:+ "limits headless" +:+ Js.dq +:+ ">"
       +:+ Js.nli 8 +:+ "<div><div>cpu</div><div>4</div></div>"
       +:+ Js.nli 6 +:+ "</div>".
Proof.
  cbv zeta.
  destruct (table_titled_headless Example.className
              (Example.tbl "Limits"
                 {| head_rows := []; body_rows := [[mkCell "cpu"; mkCell "4"]];
                    foot_rows := [] |})
              newConverter ltac:(discriminate) eq_refl) as (Htable & _ & Hblock).
  split; [exact Htable|]. vm_compute. reflexivity.
Defined.

(** A table with a head row carries no variant class, one without carries
    [headless]. *)
Lemma tableToBlock_headless_witness :
  let node :=
    Example.tbl EmptyString
      {| head_rows := [[mkCell "name"]]; body_rows := [[mkCell "cpu"]]; foot_rows := [] |} in
  tableToBlock Example.className "table" node
  = Js.nli 6 +:+ "<div class=" +:+ Js.dq +:+ "table" +:+ Js.dq +:+ ">"
    +:+ Js.nli 8 +:+ "<div><div>name</div></div>" +:+ Js.nli 4
    +:+ "<div><div>cpu</div></div>"
    +:+ Js.nli 6 +:+ "</div>"
  /\ ~ In "headless"
       (classTokens (variantSuffix Example.className (tableVariants node))).
Proof.
  cbv zeta.
  destruct (tableToBlock_headless Example.className "table"
              (Example.tbl EmptyString
                 {| head_rows := [[mkCell "name"]]; body_rows := [[mkCell "cpu"]];
                    foot_rows := [] |})
              eq_refl eq_refl) as [Hblock Hiff].
  split.
  - rewrite Hblock. vm_compute. reflexivity.
  - intros Hin. apply Hiff in Hin. discriminate Hin.
Defined.

(** An item with a nested paragraph and no text: an empty [<li>]. *)
Lemma list_item_content_without_text_witness :
  fst (list_item Example.convertBlock
         (Example.item EmptyString "<p>nested</p>" [Example.para "nested"]) newConverter)
  = inr "<li></li>".
Proof.
  unfold Example.convertBlock.
  pose proof (list_item_content_without_text Example.className Example.book
                Example.topicPath UrlModel.api Example.nodeToString unit Example.baseConverter
                (Example.item EmptyString "<p>nested</p>" [Example.para "nested"])
                newConverter eq_refl ltac:(discriminate)) as H.
  destruct (mapM _ _ newConverter) as [[e|rendered] st'] in H; now rewrite H.
Defined.

(** * Further properties *)

(** ** Suffixes and prefixes *)

Lemma substring_all (s : string) : substring 0 (String.length s) s = s.
Proof. induction s as [|c s IH]; [reflexivity|]. simpl. now rewrite IH. Qed.

Lemma substring_app_start (a b : string) :
  substring 0 (String.length a) (a +:+ b) = a.
Proof.
  induction a as [|c a IH]; [destruct b; reflexivity|].
  rewrite append_cons. simpl. now rewrite IH.
Qed.

Lemma substring_app_skip (a b : string) (m : nat) :
  substring (String.length a) m (a +:+ b) = substring 0 m b.
Proof. induction a as [|c a IH]; [reflexivity|]. rewrite append_cons. simpl. exact IH. Qed.

(** A string that is written with a suffix ends with it, and the slice
    gives back what was before. *)
Lemma endsWith_app (s suf : string) : Js.endsWith (s +:+ suf) suf = true.
Proof.
  unfold Js.endsWith. rewrite append_length.
  replace (String.length s + String.length suf - String.length suf)%nat
    with (String.length s) by lia.
  rewrite substring_app_skip, substring_all, String.eqb_refl.
  rewrite andb_true_r. apply Nat.leb_le. lia.
Qed.

Lemma sliceEnd_app (s suf : string) :
  Js.sliceEnd (s +:+ suf) (String.length suf) = s.
Proof.
  unfold Js.sliceEnd. rewrite append_length.
  replace (String.length s + String.length suf - String.length suf)%nat
    with (String.length s) by lia.
  apply substring_app_start.
Qed.

Lemma sliceEnd_slash (s : string) : Js.sliceEnd (s +:+ "/") 1 = s.
Proof. exact (sliceEnd_app s "/"). Qed.

Lemma substringFrom_cons (c : ascii) (s : string) :
  Route.substringFrom 1 (String c s) = s.
Proof.
  unfold Route.substringFrom. simpl. rewrite Nat.sub_0_r. apply substring_all.
Qed.

Lemma prefix_cons (a b : ascii) (s t : string) :
  String.prefix (String a s) (String b t)
  = if ascii_dec a b then String.prefix s t else false.
Proof. reflexivity. Qed.

Lemma startsWith_cons (c : ascii) (s : string) :
  Js.startsWith (String c s) (String c EmptyString) = true.
Proof.
  unfold Js.startsWith. simpl. destruct (ascii_dec c c) as [_|H]; [|now elim H].
  apply prefix_nil.
Qed.

(** ** Where the source of a document is fetched from *)

(** X1. The leading slash of the path is optional: a path that does not
    start with a slash resolves to the same URL with a slash put before
    it. *)
Theorem resolveURL_leading_slash (path : string) (ctx : Route.Context) :
  Js.startsWith path "/" = false ->
  Route.resolveURL ("/" +:+ path) ctx = Route.resolveURL path ctx.
Proof.
  intros Hpath. unfold Route.resolveURL. cbv zeta.
  change ("/" +:+ path) with (String "/" path).
  rewrite startsWith_cons, substringFrom_cons, Hpath. reflexivity.
Qed.

(** The root path after the two strippings. *)
Lemma rootPath_plain (r : string) :
  Js.startsWith r "/" = false -> Js.endsWith r "/" = false ->
  (if Js.endsWith (if Js.startsWith r "/" then Route.substringFrom 1 r else r) "/"
   then Js.sliceEnd (if Js.startsWith r "/" then Route.substringFrom 1 r else r) 1
   else (if Js.startsWith r "/" then Route.substringFrom 1 r else r)) = r.
Proof. intros -> ->. reflexivity. Qed.

Lemma rootPath_leading (r : string) :
  Js.endsWith r "/" = false ->
  (if Js.endsWith (if Js.startsWith (String "/" r) "/"
                   then Route.substringFrom 1 (String "/" r) else String "/" r) "/"
   then Js.sliceEnd (if Js.startsWith (String "/" r) "/"
                     then Route.substringFrom 1 (String "/" r) else String "/" r) 1
   else (if Js.startsWith (String "/" r) "/"
         then Route.substringFrom 1 (String "/" r) else String "/" r)) = r.
Proof. intros Hend. rewrite startsWith_cons, substringFrom_cons, Hend. reflexivity. Qed.

Lemma rootPath_trailing (r : string) :
  Js.startsWith r "/" = false ->
  (if Js.endsWith (if Js.startsWith (r +:+ "/") "/"
                   then Route.substringFrom 1 (r +:+ "/") else r +:+ "/") "/"
   then Js.sliceEnd (if Js.startsWith (r +:+ "/") "/"
                     then Route.substringFrom 1 (r +:+ "/") else r +:+ "/") 1
   else (if Js.startsWith (r +:+ "/") "/"
         then Route.substringFrom 1 (r +:+ "/") else r +:+ "/")) = r.
Proof.
  intros Hstart. destruct r as [|c r]; [reflexivity|].
  assert (Hs : Js.startsWith (String c r +:+ "/") "/" = false).
  { unfold Js.startsWith in *. rewrite append_cons. rewrite prefix_cons in *.
    destruct (ascii_dec "/" c); [|reflexivity].
    rewrite prefix_nil in Hstart. discriminate Hstart. }
  rewrite Hs, endsWith_app. apply (sliceEnd_app (String c r) "/").
Qed.

(** X2. The root path may be written with or without a slash at either
    end: for a root [r] that neither starts nor ends with a slash, the
    roots [r], [/r], [r/] and [/r/] resolve every path to the same URL,
    which is [up/owner/name/ref/r/path], or [up/owner/name/ref/path] when
    [r] is empty (as when the root path is left out). *)
Theorem resolveURL_root_slashes (r path : string) (ctx : Route.Context) :
  Js.startsWith r "/" = false ->
  Js.endsWith r "/" = false ->
  let e := Route.env ctx in
  let url :=
    Route.DOC_UPSTREAM e +:+ "/" +:+ Route.DOC_REPO_OWNER e +:+ "/"
    +:+ Route.DOC_REPO_NAME e +:+ "/" +:+ Route.DOC_REPO_REF e +:+ "/"
    +:+ r +:+ (if Js.truthy r then "/" else EmptyString)
    +:+ (if Js.startsWith path "/" then Route.substringFrom 1 path else path) in
  Route.resolveURL path (Route.withRoot (Some r) ctx) = url
  /\ Route.resolveURL path (Route.withRoot (Some ("/" +:+ r)) ctx) = url
  /\ Route.resolveURL path (Route.withRoot (Some (r +:+ "/")) ctx) = url
  /\ Route.resolveURL path (Route.withRoot (Some ("/" +:+ r +:+ "/")) ctx) = url
  /\ (r = EmptyString -> Route.resolveURL path (Route.withRoot None ctx) = url).
Proof.
  intros Hstart Hend. cbv zeta. unfold Route.resolveURL, Route.withRoot. cbn [Route.env
    Route.DOC_UPSTREAM Route.DOC_REPO_OWNER Route.DOC_REPO_NAME Route.DOC_REPO_REF
    Route.DOC_REPO_ROOT_PATH default from_option id].
  repeat split.
  - now rewrite Hstart, Hend.
  - change ("/" +:+ r) with (String "/" r). now rewrite rootPath_leading.
  - now rewrite rootPath_trailing.
  - change ("/" +:+ r +:+ "/") with (String "/" (r +:+ "/")).
    rewrite startsWith_cons, substringFrom_cons, endsWith_app.
    now rewrite sliceEnd_slash.
  - intros ->. reflexivity.
Qed.

(** A root given as [/docs/] and a path given as [/guide/intro]. *)
Lemma resolveURL_leading_slash_witness :
  let ctx :=
    {| Route.env :=
         {| Route.DOC_UPSTREAM := "https://raw.example.com"; Route.DOC_REPO_OWNER := "acme";
            Route.DOC_REPO_NAME := "docs"; Route.DOC_REPO_REF := "main";
            Route.DOC_REPO_ROOT_PATH := None |};
       Route.pathname := "/guide/intro"; Route.searchParams := [] |} in
  Route.resolveURL "/guide/intro" ctx = Route.resolveURL "guide/intro" ctx
  /\ Route.resolveURL "guide/intro" (Route.withRoot (Some "/book/") ctx)
     = "https://raw.example.com/acme/docs/main/book/guide/intro".
Proof.
  cbv zeta. split.
  - apply (resolveURL_leading_slash "guide/intro"). reflexivity.
  - vm_compute. reflexivity.
Defined.

Lemma resolveURL_root_slashes_witness :
  let ctx :=
    {| Route.env :=
         {| Route.DOC_UPSTREAM := "https://raw.example.com"; Route.DOC_REPO_OWNER := "acme";
            Route.DOC_REPO_NAME := "docs"; Route.DOC_REPO_REF := "main";
            Route.DOC_REPO_ROOT_PATH := None |};
       Route.pathname := "/guide/intro"; Route.searchParams := [] |} in
  Route.resolveURL "guide/intro" (Route.withRoot (Some "/book/") ctx)
  = Route.resolveURL "guide/intro" (Route.withRoot (Some "book") ctx).
Proof.
  cbv zeta.
  destruct (resolveURL_root_slashes "book" "guide/intro"
              {| Route.env :=
                   {| Route.DOC_UPSTREAM := "https://raw.example.com";
                      Route.DOC_REPO_OWNER := "acme"; Route.DOC_REPO_NAME := "docs";
                      Route.DOC_REPO_REF := "main"; Route.DOC_REPO_ROOT_PATH := None |};
                 Route.pathname := "/guide/intro"; Route.searchParams := [] |}
              eq_refl eq_refl) as (Hplain & _ & _ & Hboth & _).
  cbv zeta in Hplain, Hboth.
  change (Some "/book/") with (Some ("/" +:+ "book" +:+ "/")).
  now rewrite Hplain, Hboth.
Defined.

(** ** What the query string hands over *)

(** A string without the separator is one piece. *)
Lemma splitFrom_no_occurrence (sep s : string) :
  countOccurrences sep s = 0%nat -> Route.splitFrom sep 0 s = [s].
Proof.
  induction s as [|c s IH]; intros Hcount; [reflexivity|].
  cbn [countOccurrences] in Hcount. cbn [Route.splitFrom].
  destruct (String.prefix sep (String c s)); [discriminate Hcount|].
  rewrite IH by exact Hcount. reflexivity.
Qed.

Lemma splitOn_attr (name : string) :
  countOccurrences "attr-" name = 0%nat ->
  Route.splitOn "attr-" ("attr-" +:+ name) = [EmptyString; name].
Proof.
  intros Hcount. unfold Route.splitOn.
  change ("attr-" +:+ name)
    with (String "a" (String "t" (String "t" (String "r" (String "-" name))))).
  cbn [Route.splitFrom String.length Nat.sub].
  rewrite !prefix_cons. cbn. rewrite prefix_nil.
  now rewrite splitFrom_no_occurrence.
Qed.

Lemma startsWith_attr (name : string) : Js.startsWith ("attr-" +:+ name) "attr-" = true.
Proof.
  unfold Js.startsWith.
  change ("attr-" +:+ name)
    with (String "a" (String "t" (String "t" (String "r" (String "-" name))))).
  rewrite !prefix_cons. cbn. apply prefix_nil.
Qed.

Lemma addAttribute_attr (attributes : gmap string string) (name val : string) :
  countOccurrences "attr-" name = 0%nat ->
  Route.addAttribute attributes ("attr-" +:+ name, val)
  = if String.eqb name "__proto__" then attributes else <[name := val]> attributes.
Proof.
  intros Hcount. unfold Route.addAttribute.
  rewrite startsWith_attr, splitOn_attr by exact Hcount. reflexivity.
Qed.

(** X3. A query parameter [attr-name=value] sets the attribute [name] to
    [value], over whatever the parameters before it set, and leaves every
    other attribute as they set it; except that [attr-__proto__] sets
    nothing at all, the attributes being an object literal. (The name must
    not itself hold [attr-]: the split would cut it there.) *)
Theorem collectAttributes_sets (entries : list (string * string)) (name val : string) :
  countOccurrences "attr-" name = 0%nat ->
  let attributes := Route.collectAttributes (entries ++ [("attr-" +:+ name, val)]) in
  if String.eqb name "__proto__"
  then attributes = Route.collectAttributes entries
  else attributes !! name = Some val
       /\ forall other,
            other <> name -> attributes !! other = Route.collectAttributes entries !! other.
Proof.
  intros Hcount. cbv zeta. unfold Route.collectAttributes. rewrite fold_left_app.
  cbn [fold_left]. rewrite addAttribute_attr by exact Hcount.
  destruct (String.eqb name "__proto__"); [reflexivity|]. split.
  - apply lookup_insert_eq.
  - intros other Hother. now apply lookup_insert_ne.
Qed.

Lemma fold_addAttribute_skip (before after : list (string * string))
    (key val : string) (attributes : gmap string string) :
  Js.startsWith key "attr-" = false ->
  fold_left Route.addAttribute (before ++ (key, val) :: after) attributes
  = fold_left Route.addAttribute (before ++ after) attributes.
Proof.
  intros Hkey. rewrite !fold_left_app. cbn [fold_left].
  unfold Route.addAttribute at 2. now rewrite Hkey.
Qed.

(** X4. A query parameter whose key does not start with [attr-] (such as
    [backend]) contributes no attribute, wherever it stands among the
    others. *)
Theorem collectAttributes_ignores (before after : list (string * string))
    (key val : string) :
  Js.startsWith key "attr-" = false ->
  Route.collectAttributes (before ++ (key, val) :: after)
  = Route.collectAttributes (before ++ after).
Proof. intros Hkey. now apply fold_addAttribute_skip. Qed.

(** The query string [attr-icons=font&backend=html5&attr-toc=left]. *)
Lemma collectAttributes_sets_witness :
  Route.collectAttributes
    ([("attr-icons", "font"); ("backend", "html5")] ++ [("attr-" +:+ "toc", "left")])
  !! "toc" = Some "left".
Proof.
  apply (collectAttributes_sets [("attr-icons", "font"); ("backend", "html5")] "toc" "left").
  reflexivity.
Defined.

(** The query string [attr-icons=font&attr-__proto__=x]: one attribute. *)
Lemma collectAttributes_proto :
  Route.collectAttributes [("attr-icons", "font"); ("attr-__proto__", "x")]
  = {[ "icons" := "font" ]}.
Proof. vm_compute. reflexivity. Qed.

Lemma collectAttributes_ignores_witness :
  Route.collectAttributes ([("attr-icons", "font")] ++ ("backend", "html5") :: [("attr-toc", "left")])
  = Route.collectAttributes ([("attr-icons", "font")] ++ [("attr-toc", "left")]).
Proof.
  apply (collectAttributes_ignores [("attr-icons", "font")] [("attr-toc", "left")]
           "backend" "html5").
  reflexivity.
Defined.

(** The cut: in [attr-a-attr-b] the attribute is [a-]. *)
Lemma collectAttributes_cut :
  Route.collectAttributes [("attr-a-attr-b", "1")] = {[ "a-" := "1" ]}.
Proof. vm_compute. reflexivity. Qed.

(** ** The directory of the topic *)

Lemma split_nonempty (sep : ascii) (s : string) : Js.split sep s <> [].
Proof.
  destruct s as [|c s]; [discriminate|]. cbn [Js.split].
  destruct (Ascii.eqb c sep); [discriminate|].
  destruct (Js.split sep s); discriminate.
Qed.

Lemma split_no_separator (sep : ascii) (s : string) :
  occursIn sep s = false -> Js.split sep s = [s].
Proof.
  induction s as [|c s IH]; intros Hs; [reflexivity|].
  cbn [occursIn] in Hs. apply orb_false_iff in Hs as [Hc Hs].
  cbn [Js.split]. rewrite Hc, (IH Hs). reflexivity.
Qed.

(** A last segment without a slash is the last piece of the split. *)
Lemma split_app_last (sep : ascii) (d f : string) :
  occursIn sep f = false ->
  Js.split sep (d +:+ String sep f) = Js.split sep d ++ [f].
Proof.
  intros Hf. induction d as [|c d IH].
  - change (EmptyString +:+ String sep f) with (String sep f).
    cbn [Js.split]. rewrite Ascii.eqb_refl, (split_no_separator sep f Hf). reflexivity.
  - rewrite append_cons. cbn [Js.split]. rewrite IH.
    destruct (Ascii.eqb c sep); [reflexivity|].
    destruct (Js.split sep d) as [|x xs] eqn:Hd; [now elim (split_nonempty sep d)|].
    reflexivity.
Qed.

Lemma join_cons (sep x y : string) (l : list string) :
  Js.join sep (x :: y :: l) = x +:+ sep +:+ Js.join sep (y :: l).
Proof. reflexivity. Qed.

(** Joining the pieces of a split with the separator gives the string
    back. *)
Lemma join_split (sep : ascii) (s : string) :
  Js.join (String sep EmptyString) (Js.split sep s) = s.
Proof.
  induction s as [|c s IH]; [reflexivity|].
  cbn [Js.split]. destruct (Ascii.eqb_spec c sep) as [->|Hne].
  - destruct (Js.split sep s) as [|x xs] eqn:Hs; [now elim (split_nonempty sep s)|].
    rewrite join_cons, IH. reflexivity.
  - destruct (Js.split sep s) as [|x xs] eqn:Hs; [now elim (split_nonempty sep s)|].
    destruct xs as [|y ys].
    + cbn in IH |- *. now rewrite IH.
    + rewrite join_cons in IH |- *. rewrite append_cons, IH. reflexivity.
Qed.

(** X5. The directory of the topic is the topic path without its last
    segment and the slash before it; a topic path without a slash has the
    empty directory. *)
Theorem topicDirPath_last_segment (dir file : string) :
  occursIn "/" file = false ->
  topicDirPath (dir +:+ "/" +:+ file) = dir
  /\ topicDirPath file = EmptyString.
Proof.
  intros Hfile. unfold topicDirPath. split.
  - change (dir +:+ "/" +:+ file) with (dir +:+ String "/" file).
    rewrite split_app_last by exact Hfile.
    rewrite removelast_last. apply join_split.
  - rewrite split_no_separator by exact Hfile. reflexivity.
Qed.

Lemma topicDirPath_last_segment_witness :
  topicDirPath ("guide/setup" +:+ "/" +:+ "intro.adoc") = "guide/setup"
  /\ topicDirPath "intro.adoc" = EmptyString.
Proof. apply (topicDirPath_last_segment "guide/setup" "intro.adoc"). reflexivity. Defined.

(** ** Link targets *)

Section Targets.

Variable toClassName : string -> string.
Variable book : Book.
Variable topicPath : string.
Variable URL : UrlApi.

(** X6. A target that is no URL keeps its text: with the [.franklin]
    suffix it is rewritten to what stands before the suffix, and without
    the suffix it is not changed at all. *)
Theorem rewriteTarget_not_a_url (s : string) :
  url_parse URL s = None ->
  rewriteTarget URL (s +:+ ".franklin") = s
  /\ (Js.endsWith s ".franklin" = false -> rewriteTarget URL s = s).
Proof.
  intros Hparse. unfold rewriteTarget. split.
  - rewrite endsWith_app, sliceEnd_app, Hparse. reflexivity.
  - intros ->. rewrite Hparse. reflexivity.
Qed.

(** X7. The only way [inline_anchor] throws: the node is an include
    (role [bare include]) and has no target. *)
Theorem inline_anchor_throws_iff (node : Node) (st : FranklinConverter) :
  (exists e st', inline_anchor toClassName book topicPath URL node st = (inl e, st'))
  <-> (getRole node = Some "bare include" /\ getTarget node = None).
Proof.
  unfold inline_anchor. split.
  - intros (e & st' & Hthrow).
    destruct (Js.strict_eq (getRole node) "bare include") eqn:Hrole; [|discriminate Hthrow].
    assert (Hr : getRole node = Some "bare include").
    { destruct (getRole node) as [r|]; [|discriminate Hrole].
      simpl in Hrole. apply String.eqb_eq in Hrole. now subst r. }
    split; [exact Hr|].
    destruct (getTarget node) as [h|]; [|reflexivity].
    exfalso. destruct (Js.truthy h);
      match type of Hthrow with
      | context [if negb (Js.isHttpUrl ?x) then _ else _] =>
          destruct (negb (Js.isHttpUrl x)); discriminate Hthrow
      end.
  - intros [Hrole Htarget]. rewrite Hrole, Htarget. cbn. eauto.
Qed.

End Targets.

Lemma rewriteTarget_not_a_url_witness :
  rewriteTarget UrlModel.api ("../other/topic" +:+ ".franklin") = "../other/topic".
Proof.
  destruct (rewriteTarget_not_a_url UrlModel.api "../other/topic" eq_refl) as [H _].
  exact H.
Defined.

(** ** Sections at any depth, and what [convert] leaves behind *)

Lemma leavesDoc_ret {A} (a : A) : leavesDoc (ret a).
Proof. intros st. cbn. auto. Qed.

Lemma leavesDoc_log (lvl : LogLevel) (args : list LogArg) : leavesDoc (log lvl args).
Proof. intros st. cbn. auto. Qed.

Lemma leavesDoc_bind {A B} (m : M A) (k : A -> M B) :
  leavesDoc m -> (forall a, leavesDoc (k a)) -> leavesDoc (bind m k).
Proof.
  intros Hm Hk st. unfold bind. specialize (Hm st).
  destruct (m st) as [[e|a] st1]; [exact I|].
  specialize (Hk a st1). destruct (k a st1) as [[e|b] st2]; [exact I | auto].
Qed.

Lemma leavesDoc_throw {A} (e : Exn) : leavesDoc (@throw A e).
Proof. intros st. exact I. Qed.

Lemma leavesDoc_mapM {A B} (f : A -> M B) (xs : list A) :
  Forall (fun x => leavesDoc (f x)) xs -> leavesDoc (mapM f xs).
Proof.
  induction 1 as [|x xs Hx _ IH]; cbn [mapM].
  - apply leavesDoc_ret.
  - apply leavesDoc_bind; [exact Hx|]. intros y.
    apply leavesDoc_bind; [exact IH|]. intros ys. apply leavesDoc_ret.
Qed.

Lemma dlist_leavesDoc (node : Node) : leavesDoc (dlist node).
Proof.
  unfold dlist. apply leavesDoc_bind; [|intros rendered; apply leavesDoc_ret].
  apply leavesDoc_mapM, Forall_forall. intros row _.
  unfold dlistRow. apply leavesDoc_bind; [|intros cols; apply leavesDoc_ret].
  apply leavesDoc_mapM, Forall_forall. intros [col|] _.
  - apply leavesDoc_ret.
  - apply leavesDoc_throw.
Qed.

Section AfterConvert.

Variable toClassName : string -> string.
Variable book : Book.
Variable topicPath : string.
Variable URL : UrlApi.
Variable nodeToString : Node -> string.
Variable Opts : Type.
Variable baseConverter : Node -> option string -> option Opts -> string.

Abbreviation convert :=
  (convert toClassName book topicPath URL nodeToString baseConverter).
Abbreviation convertBlock :=
  (convertBlock toClassName book topicPath URL nodeToString baseConverter).
Abbreviation runTemplate := (runTemplate toClassName book topicPath URL).

(** X8. At any depth the [section] renderer writes exactly one opening
    and one closing [div] tag of its own: at depth 0 around the heading
    and the blocks, deeper before them (the closing tag is then the one of
    the section before). So the two tags stay as many as each other
    through nested sections. *)
Theorem section_adds_one_pair (node : Node) (st : FranklinConverter) :
  match section convertBlock node st with
  | (inr out, _) =>
      exists rendered,
        fst (mapM convertBlock (getBlocks node)
               (set_sectionDepth (sectionDepth st + 1) st)) = inr rendered
        /\ out = (if 0 <? sectionDepth st
                  then "</div><div>" +:+ sectionContent node rendered
                  else "<div>" +:+ sectionContent node rendered +:+ "</div>")
        /\ countOccurrences "<div>" out
           = S (countOccurrences "<div>" (sectionContent node rendered))
        /\ countOccurrences "</div>" out
           = S (countOccurrences "</div>" (sectionContent node rendered))
  | (inl _, _) => True
  end.
Proof.
  unfold section, bind, gets, modify, ret.
  destruct (mapM convertBlock (getBlocks node)
              (set_sectionDepth (sectionDepth st + 1) st)) as [[e|rendered] st1];
    [exact I|].
  exists rendered. split; [reflexivity|].
  destruct (0 <? sectionDepth st); cbn [Js.truthy fst].
  - rewrite append_nil_r.
    change ("</div>" +:+ "<div>" +:+ sectionContent node rendered)
      with ("</div><div>" +:+ sectionContent node rendered).
    split; [reflexivity|].
    split; rewrite count_app_l by reflexivity; reflexivity.
  - change (EmptyString +:+ "<div>" +:+ sectionContent node rendered +:+ "</div>")
      with ("<div>" +:+ sectionContent node rendered +:+ "</div>").
    split; [reflexivity|]. apply count_div_wrapped.
Qed.


Lemma runTemplate_leavesDoc (template : Template) (node : Node) :
  Forall (fun block => leavesDoc (convertBlock block)) (getBlocks node) ->
  leavesDoc (runTemplate convertBlock template node).
Proof.
  intros Hblocks. pose proof (leavesDoc_mapM _ _ Hblocks) as Hmap.
  assert (Hlist : forall k : list string -> M string,
             (forall r, leavesDoc (k r)) ->
             leavesDoc (bind (mapM convertBlock (getBlocks node)) k)).
  { intros k Hk. now apply leavesDoc_bind. }
  assert (Hpure : forall s : string, leavesDoc (ret s)) by (intros s; apply leavesDoc_ret).
  destruct template; cbn [runTemplate].
  all: try (intros st; cbn; now auto).
  - intros st. unfold inline_anchor.
    destruct (Js.strict_eq (getRole node) "bare include"); [|cbn; now auto].
    destruct (getTarget node) as [h|]; [|exact I].
    destruct (Js.truthy h);
      match goal with
      | |- context [if negb (Js.isHttpUrl ?x) then _ else _] =>
          destruct (negb (Js.isHttpUrl x)); cbn; now auto
      end.
  - intros st. unfold section, bind, gets, modify, ret.
    specialize (Hmap (set_sectionDepth (sectionDepth st + 1) st)).
    destruct (mapM convertBlock (getBlocks node) _) as [[e|rendered] st1]; [exact I|].
    exact Hmap.
  - intros st. unfold inline_quoted.
    repeat (match goal with |- context [if ?b then _ else _] => destruct b end);
      cbn; now auto.
  - apply Hlist. intros r. apply Hpure.
  - apply dlist_leavesDoc.
  - unfold olist. apply Hlist. intros r. destruct (negb _); apply Hpure.
  - unfold list_item.
    destruct (negb (Js.truthy (getText node)) && negb (Js.truthy (getContent node))).
    + apply Hpure.
    + apply Hlist. intros r. apply Hpure.
  - intros st. unfold image.
    destruct (getAttribute node "target") as [src|]; [|cbn; now auto].
    destruct (negb (Js.truthy src)); cbn; now auto.
  - intros st. unfold table.
    repeat (match goal with |- context [if ?b then _ else _] => destruct b end);
      cbn; now auto.
Qed.

Lemma callInherited_leavesDoc (member : ObjectMember) (node : Node) :
  leavesDoc (callInherited member node).
Proof. destruct member; first [apply leavesDoc_ret | apply leavesDoc_throw]. Qed.

(** The part of [convert] after the document reference is set. *)
Lemma dispatch_leavesDoc (node : Node) (transform : option string) (opts : option Opts) :
  Forall (fun block => leavesDoc (convertBlock block)) (getBlocks node) ->
  leavesDoc
    (match templates (effectiveName node transform) with
     | Some (Own template) =>
         content <- runTemplate convertBlock template node ;; ret (Str content)
     | Some (Inherited member) => callInherited member node
     | None =>
         log LogWarn
           [LogStr "handling node with base template...";
            LogStr (effectiveName node transform)] ;;
         log LogInfo
           [LogStr "handled node with base template: ";
            LogStr (effectiveName node transform); LogNode node;
            LogStr (baseConverter node transform opts)] ;;
         ret (Str (baseConverter node transform opts))
     end)%conv.
Proof.
  intros Hblocks.
  destruct (templates (effectiveName node transform)) as [[template|member]|].
  - apply leavesDoc_bind; [now apply runTemplate_leavesDoc|].
    intros c. apply leavesDoc_ret.
  - apply callInherited_leavesDoc.
  - intros st. cbn. auto.
Qed.

Lemma convert_leavesDoc (node : Node) :
  forall transform opts, leavesDoc (convert node transform opts).
Proof.
  induction node as [node IH] using Node_blocks_ind. intros transform opts.
  rewrite convert_unfold. cbv zeta.
  apply leavesDoc_bind; [apply leavesDoc_log|]. intros _.
  apply leavesDoc_bind; [intros st; cbn; now eauto|]. intros _.
  apply dispatch_leavesDoc.
  eapply Forall_impl; [exact IH|]. intros block Hblock.
  apply leavesDoc_bind; [apply Hblock|]. intros c. apply leavesDoc_ret.
Qed.

Lemma convertBlock_leavesDoc (block : Node) : leavesDoc (convertBlock block).
Proof.
  apply leavesDoc_bind; [apply convert_leavesDoc|]. intros c. apply leavesDoc_ret.
Qed.

(** X10. Before any [convert] the converter has no document, and
    [iconsEnabled] throws. Every [convert] that returns leaves a document
    reference set, so that [iconsEnabled] then returns: whether that
    document has a truthy [icons] attribute. *)
Theorem convert_sets_doc (node : Node) (transform : option string)
    (opts : option Opts) (st : FranklinConverter) :
  (exists e, iconsEnabled newConverter = (inl e, newConverter))
  /\ match convert node transform opts st with
     | (inr _, st') =>
         exists d,
           doc st' = Some d
           /\ iconsEnabled st' = (inr (Js.truthy_opt (doc_attributes d !! "icons")), st')
     | (inl _, _) => True
     end.
Proof.
  split; [cbn; eauto|].
  rewrite convert_unfold. cbv zeta.
  pose proof (dispatch_leavesDoc node transform opts) as Hrest.
  match type of Hrest with _ -> leavesDoc ?m => set (rest := m) in * end.
  assert (Hdoc : leavesDoc rest).
  { apply Hrest. apply Forall_forall. intros block _. apply convertBlock_leavesDoc. }
  clear Hrest.
  unfold bind at 1 2. unfold log at 1. unfold modify.
  match goal with |- match rest ?s with _ => _ end => specialize (Hdoc s) end.
  destruct (rest _) as [[e|out] st']; [exact I|].
  destruct (Hdoc ltac:(cbn; eauto)) as [d Hd].
  exists d. split; [exact Hd|].
  unfold iconsEnabled, bind, gets, ret. now rewrite Hd.
Qed.

End AfterConvert.

(** ** Literal blocks, admonitions and blocks *)

Lemma occursIn_app (c : ascii) (a b : string) :
  occursIn c (a +:+ b) = occursIn c a || occursIn c b.
Proof.
  induction a as [|x a IH]; [reflexivity|].
  rewrite append_cons. cbn [occursIn]. rewrite IH. apply orb_assoc.
Qed.

Lemma replaceTabs_no_tab (s : string) : occursIn "009" (Js.replaceTabs s) = false.
Proof.
  induction s as [|c s IH]; [reflexivity|].
  cbn [Js.replaceTabs occursIn]. rewrite IH, orb_false_r.
  destruct (Ascii.eqb c "009") eqn:Hc; [reflexivity | exact Hc].
Qed.

Lemma replaceTabs_length (s : string) :
  String.length (Js.replaceTabs s) = String.length s.
Proof. induction s as [|c s IH]; [reflexivity|]. cbn. now rewrite IH. Qed.

Lemma replaceTabs_id (s : string) :
  occursIn "009" s = false -> Js.replaceTabs s = s.
Proof.
  induction s as [|c s IH]; intros Hs; [reflexivity|].
  cbn [occursIn] in Hs. apply orb_false_iff in Hs as [Hc Hs].
  cbn [Js.replaceTabs]. now rewrite Hc, (IH Hs).
Qed.

(** At every position a tab stands as a space, and any other character
    as itself. *)
Lemma replaceTabs_get (s : string) :
  forall (i : nat) (c : ascii),
    String.get i s = Some c ->
    String.get i (Js.replaceTabs s) = Some (if Ascii.eqb c "009" then " "%char else c).
Proof.
  induction s as [|x s IH]; intros i c Hget; [discriminate Hget|].
  destruct i as [|i]; cbn [Js.replaceTabs String.get] in *.
  - now injection Hget as ->.
  - now apply IH.
Qed.

(** X11. A literal or listing block never renders a tab: the body between
    the [<pre><code>] and [</code></pre>] tags is the content character by
    character, with one space where the content has a tab and every other
    character as it is; so a content without tabs is rendered unchanged. *)
Theorem literal_has_no_tab (node : Node) (st : FranklinConverter) :
  exists body,
    literal node st = (inr ("<pre><code>" +:+ body +:+ "</code></pre>"), st)
    /\ listing node st = literal node st
    /\ String.length body = String.length (getContent node)
    /\ (forall (i : nat) (c : ascii),
          String.get i (getContent node) = Some c ->
          String.get i body = Some (if Ascii.eqb c "009" then " "%char else c))
    /\ occursIn "009" ("<pre><code>" +:+ body +:+ "</code></pre>") = false
    /\ (occursIn "009" (getContent node) = false -> body = getContent node).
Proof.
  exists (Js.replaceTabs (getContent node)). split; [reflexivity|]. split; [reflexivity|].
  split; [|split; [|split]].
  - apply replaceTabs_length.
  - apply replaceTabs_get.
  - rewrite !occursIn_app, replaceTabs_no_tab. reflexivity.
  - apply replaceTabs_id.
Qed.

Lemma trimStart_allSpaces (s : string) : allSpaces s = true -> Js.trimStart s = EmptyString.
Proof.
  induction s as [|c s IH]; intros Hs; [reflexivity|].
  cbn [allSpaces] in Hs. apply andb_true_iff in Hs as [Hc Hs].
  cbn [Js.trimStart]. rewrite Hc. now apply IH.
Qed.

Lemma trimStart_app_spaces (a s : string) :
  allSpaces a = true -> Js.trimStart (a +:+ s) = Js.trimStart s.
Proof.
  induction a as [|c a IH]; intros Ha; [reflexivity|].
  cbn [allSpaces] in Ha. apply andb_true_iff in Ha as [Hc Ha].
  rewrite append_cons. cbn [Js.trimStart]. rewrite Hc. now apply IH.
Qed.

Lemma trimEnd_allSpaces (s : string) : allSpaces s = true -> Js.trimEnd s = EmptyString.
Proof.
  induction s as [|c s IH]; intros Hs; [reflexivity|].
  cbn [allSpaces] in Hs. apply andb_true_iff in Hs as [Hc Hs].
  cbn [Js.trimEnd]. rewrite (IH Hs), Hc. reflexivity.
Qed.

Lemma trimEnd_app_spaces (s b : string) :
  allSpaces b = true -> Js.trimEnd (s +:+ b) = Js.trimEnd s.
Proof.
  intros Hb. induction s as [|c s IH].
  - change (EmptyString +:+ b) with b. now apply trimEnd_allSpaces.
  - rewrite append_cons. cbn [Js.trimEnd]. now rewrite IH.
Qed.

(** White space around a string does not show after [trim]. *)
Lemma trim_app_spaces (a s b : string) :
  allSpaces a = true -> allSpaces b = true ->
  Js.trim (a +:+ s +:+ b) = Js.trim s.
Proof.
  intros Ha Hb. unfold Js.trim. rewrite trimStart_app_spaces by exact Ha.
  induction s as [|c s IH].
  - change (EmptyString +:+ b) with b.
    rewrite trimStart_allSpaces by exact Hb. reflexivity.
  - rewrite append_cons. cbn [Js.trimStart]. destruct (Js.isSpace c); [exact IH|].
    rewrite <- append_cons. now apply trimEnd_app_spaces.
Qed.

Lemma trim_allSpaces (s : string) : allSpaces s = true -> Js.trim s = EmptyString.
Proof. intros Hs. unfold Js.trim. now rewrite trimStart_allSpaces. Qed.

(** Lower case beyond ASCII, and the no-break space as white space: a
    style that starts with a capital E with an acute accent (U+00C9), and
    titles with a no-break space (U+00A0). *)
Lemma toLowerCase_trim_latin1 :
  Js.toLowerCase (String "201" "CLAIR") = String "233" "clair"
  /\ Js.trim (String "160" " ") = EmptyString
  /\ Js.trim (String "160" "a ") = "a".
Proof. repeat split; vm_compute; reflexivity. Qed.

(** X12. An admonition whose title is missing, empty or white space only
    renders no [<h6>]: the content stands alone in the inner [div], under
    the class [admonition] and the style in lower case. *)
Theorem admonition_blank_title (node : Node) (st : FranklinConverter) :
  allSpaces (getTitle node) = true ->
  admonition node st =
  (inr (Js.nli 10 +:+ "<div class=" +:+ Js.dq +:+ "admonition "
          +:+ Js.toLowerCase (getStyle node) +:+ Js.dq +:+ ">"
        +:+ Js.nli 12 +:+ "<div>"
        +:+ Js.nli 14 +:+ "<div>"
        +:+ Js.nli 16 +:+ getContent node
        +:+ Js.nli 14 +:+ "</div>"
        +:+ Js.nli 12 +:+ "</div>"
        +:+ Js.nli 10 +:+ "</div>"), st).
Proof.
  intros Htitle. unfold admonition. cbv zeta.
  rewrite (trim_allSpaces _ Htitle). reflexivity.
Qed.

(** A note whose title is a no-break space and a space. *)
Lemma admonition_blank_title_witness :
  let node :=
    {| getNodeName := "admonition"; getDocument := Example.document; attributes := ∅;
       getTitle := String "160" " "; getStyle := "NOTE"; getLevel := 0; getTarget := None;
       getText := EmptyString; getType := EmptyString; getContent := "<p>Mind the gap.</p>";
       getBlocks := []; getDlistRows := []; getRows := Example.noRows |} in
  fst (admonition node newConverter)
  = inr (Js.nli 10 +:+ "<div class=" +:+ Js.dq +:+ "admonition note" +:+ Js.dq +:+ ">"
         +:+ Js.nli 12 +:+ "<div>"
         +:+ Js.nli 14 +:+ "<div>"
         +:+ Js.nli 16 +:+ "<p>Mind the gap.</p>"
         +:+ Js.nli 14 +:+ "</div>"
         +:+ Js.nli 12 +:+ "</div>"
         +:+ Js.nli 10 +:+ "</div>").
Proof.
  cbv zeta. rewrite admonition_blank_title by reflexivity. reflexivity.
Defined.

Section Blocks.

Variable toClassName : string -> string.

(** X13. White space around the content of a block does not show: the
    content is trimmed before it is written between the tags. *)
Theorem makeBlock_ignores_outer_space (name content before after : string)
    (variants : list string) (singleCell : bool) :
  allSpaces before = true -> allSpaces after = true ->
  makeBlock toClassName name (before +:+ content +:+ after) variants singleCell
  = makeBlock toClassName name content variants singleCell.
Proof.
  intros Hb Ha. unfold makeBlock. now rewrite trim_app_spaces.
Qed.

End Blocks.

Lemma makeBlock_ignores_outer_space_witness :
  makeBlock Example.className "note" (Js.nli 4 +:+ "<p>x</p>" +:+ Js.nl) [] true
  = makeBlock Example.className "note" "<p>x</p>" [] true.
Proof.
  apply (makeBlock_ignores_outer_space Example.className "note" "<p>x</p>"
           (Js.nli 4) Js.nl [] true); reflexivity.
Defined.

(** ** Lists *)

Lemma join_all_empty (rendered : list string) :
  Forall (fun s => s = EmptyString) rendered -> Js.join EmptyString rendered = EmptyString.
Proof.
  induction 1 as [|s rest -> _ IH]; [reflexivity|].
  destruct rest as [|t rest]; [reflexivity|].
  rewrite join_cons, IH. reflexivity.
Qed.

Lemma convertBlock_eq (toClassName : string -> string) (book : Book) (topicPath : string)
    (URL : UrlApi) (nodeToString : Node -> string) (Opts : Type)
    (baseConverter : Node -> option string -> option Opts -> string) (block : Node) :
  convertBlock toClassName book topicPath URL nodeToString baseConverter block
  = (content <- convert toClassName book topicPath URL nodeToString baseConverter
                  block None None ;;
     ret (contentToString nodeToString content))%conv.
Proof. reflexivity. Qed.

Section Lists.

Variable toClassName : string -> string.
Variable book : Book.
Variable topicPath : string.
Variable URL : UrlApi.
Variable nodeToString : Node -> string.
Variable Opts : Type.
Variable baseConverter : Node -> option string -> option Opts -> string.

Abbreviation convert :=
  (convert toClassName book topicPath URL nodeToString baseConverter).
Abbreviation convertBlock :=
  (convertBlock toClassName book topicPath URL nodeToString baseConverter).

(** An item without text and content renders as nothing. *)
Lemma convertBlock_emptyListItem (block : Node) (st : FranklinConverter) :
  emptyListItem block -> fst (convertBlock block st) = inr EmptyString.
Proof.
  intros (Hname & Htext & Hcontent). rewrite convertBlock_eq, convert_unfold. cbv zeta. unfold effectiveName. cbn [Js.truthy_opt].
  rewrite Hname. cbn [templates String.eqb Ascii.eqb Bool.eqb].
  unfold bind, log, modify, runTemplate, list_item.
  rewrite Htext, Hcontent. reflexivity.
Qed.

Lemma mapM_emptyListItems (blocks : list Node) :
  Forall emptyListItem blocks ->
  forall st, exists rendered,
    fst (mapM convertBlock blocks st) = inr rendered
    /\ Forall (fun s => s = EmptyString) rendered.
Proof.
  induction 1 as [|block blocks Hblock _ IH]; intros st.
  - exists []. split; [reflexivity | constructor].
  - cbn [mapM]. unfold bind.
    pose proof (convertBlock_emptyListItem block st Hblock) as Hfst.
    destruct (convertBlock block st) as [[e|out] st1]; [discriminate Hfst|].
    cbn in Hfst. injection Hfst as ->.
    destruct (IH st1) as (rendered & Hrest & Hall).
    destruct (mapM convertBlock blocks st1) as [[e|outs] st2]; [discriminate Hrest|].
    cbn in Hrest. injection Hrest as ->.
    exists (EmptyString :: rendered). split; [reflexivity | now constructor].
Qed.

(** X14. A list all of whose blocks are empty items (no text, no content),
    and so a list with no block at all, renders as nothing: no empty
    [<ul>] or [<ol>] is written. With the role [procedure] an ordered list
    still writes its block, around nothing. *)
Theorem list_of_empty_items (node : Node) (st : FranklinConverter) :
  Forall emptyListItem (getBlocks node) ->
  fst (ulist convertBlock node st) = inr EmptyString
  /\ (getAttribute node "role" <> Some "procedure" ->
      fst (olist toClassName convertBlock node st) = inr EmptyString)
  /\ (getAttribute node "role" = Some "procedure" ->
      fst (olist toClassName convertBlock node st)
      = inr (makeBlock toClassName "procedure" EmptyString [] true)).
Proof.
  intros Hblocks.
  destruct (mapM_emptyListItems _ Hblocks st) as (rendered & Hmap & Hall).
  apply join_all_empty in Hall.
  unfold ulist, olist, bind.
  destruct (mapM convertBlock (getBlocks node) st) as [[e|outs] st1]; [discriminate Hmap|].
  cbn in Hmap. injection Hmap as ->. rewrite Hall. cbn [Js.truthy].
  split; [reflexivity|]. split.
  - intros Hrole. now rewrite (strict_eq_false _ _ Hrole).
  - intros ->. reflexivity.
Qed.

End Lists.

(** A list of two empty items. *)
Lemma list_of_empty_items_witness :
  fst (ulist Example.convertBlock
         {| getNodeName := "ulist"; getDocument := Example.document; attributes := ∅;
            getTitle := EmptyString; getStyle := EmptyString; getLevel := 0;
            getTarget := None; getText := EmptyString; getType := EmptyString;
            getContent := EmptyString;
            getBlocks := [Example.item EmptyString EmptyString [];
                          Example.item EmptyString EmptyString []];
            getDlistRows := []; getRows := Example.noRows |} newConverter)
  = inr EmptyString.
Proof.
  apply (list_of_empty_items Example.className Example.book Example.topicPath
           UrlModel.api Example.nodeToString unit Example.baseConverter).
  repeat constructor.
Defined.

(** ** Description lists *)

Lemma join_empty_app (xs ys : list string) :
  Js.join EmptyString (xs ++ ys) = Js.join EmptyString xs +:+ Js.join EmptyString ys.
Proof.
  induction xs as [|x xs IH]; [reflexivity|].
  destruct xs as [|x' xs].
  - destruct ys as [|y ys]; [now rewrite append_nil_r|]. reflexivity.
  - change ((x :: x' :: xs) ++ ys) with (x :: x' :: (xs ++ ys)).
    rewrite !join_cons. change (x' :: xs ++ ys) with ((x' :: xs) ++ ys).
    rewrite IH. change (EmptyString +:+ ?s) with s. now rewrite append_assoc.
Qed.

(** X15. However deep the arrays of a description-list column are nested,
    the column renders as its entries from left to right, each in a
    paragraph of its own. *)
Theorem convertCol_flattens (col : DlistCol) :
  convertCol col
  = Js.join EmptyString (map (fun text => "<p>" +:+ text +:+ "</p>") (dlistEntries col)).
Proof.
  revert col. fix IH 1. intros [text|cols].
  - reflexivity.
  - cbn [convertCol dlistEntries].
    induction cols as [|c cols IHcols]; [reflexivity|].
    cbn [map List.concat]. rewrite map_app, join_empty_app, <- IHcols, <- IH.
    destruct cols as [|c' cols]; [now rewrite append_nil_r|]. reflexivity.
Qed.

(** ** The lists at the top of the tree *)

Lemma wrapListElement_cases (element : HastNode) :
  wrapListElement element
  = if isListElement element then HElement "div" [] [element] else element.
Proof.
  destruct element as [tagName properties children|value|value|]; try reflexivity.
  cbn [wrapListElement isListElement wrappedElements existsb].
  rewrite orb_false_r.
  destruct tagName as [|c tagName]; reflexivity.
Qed.

Lemma wrapListElement_not_list (element : HastNode) :
  isListElement (wrapListElement element) = false.
Proof.
  rewrite wrapListElement_cases.
  destruct (isListElement element) eqn:Hlist; [reflexivity | exact Hlist].
Qed.

(** X16. After the fix-up no child of the root is an [ol] or [ul]
    element: each such child stands alone inside a new [div] without
    properties, in its place; every other child is kept as it is, the
    number and the order of the children do not change, and a second pass
    would change nothing. *)
Theorem wrapTopLevelLists_spec (tree : HastRoot) :
  let wrapped := wrapTopLevelLists tree in
  Forall (fun element => isListElement element = false) (root_children wrapped)
  /\ Forall2 (fun element element' =>
               element' = if isListElement element
                          then HElement "div" [] [element] else element)
       (root_children tree) (root_children wrapped)
  /\ wrapTopLevelLists wrapped = wrapped.
Proof.
  cbv zeta. destruct tree as [children]. unfold wrapTopLevelLists. cbn [root_children].
  split; [|split].
  - induction children as [|element children IH]; constructor; auto.
    apply wrapListElement_not_list.
  - induction children as [|element children IH]; constructor; auto.
    apply wrapListElement_cases.
  - f_equal. induction children as [|element children IH]; [reflexivity|].
    cbn [map]. rewrite IH. f_equal.
    rewrite (wrapListElement_cases (wrapListElement element)).
    now rewrite wrapListElement_not_list.
Qed.

(** ** The shape of a normalised host name *)

Lemma lowerChar_not_upper (c : ascii) : isUpper (Js.lowerChar c) = false.
Proof. destruct c as [[] [] [] [] [] [] [] []]; reflexivity. Qed.

Lemma toLowerCase_no_upper (s : string) (c : ascii) :
  occursIn c (Js.toLowerCase s) = true -> isUpper c = false.
Proof.
  induction s as [|x s IH]; [discriminate|].
  cbn [Js.toLowerCase occursIn]. intros H. apply orb_true_iff in H as [H|H]; [|auto].
  apply Ascii.eqb_eq in H. subst c. apply lowerChar_not_upper.
Qed.

Lemma isHyphen_dec (c : ascii) :
  isHyphen c = if ascii_dec "-" c then true else false.
Proof.
  unfold isHyphen. destruct (ascii_dec "-" c) as [<-|Hne]; [reflexivity|].
  apply Ascii.eqb_neq. congruence.
Qed.

Lemma prefix_hyphens_toLowerCase (n : nat) :
  forall s, String.prefix (hyphens n) (Js.toLowerCase s) = String.prefix (hyphens n) s.
Proof.
  induction n as [|n IH]; intros s; [now rewrite !prefix_nil|].
  destruct s as [|c s]; [reflexivity|].
  cbn [hyphens Js.toLowerCase]. rewrite !prefix_cons, IH.
  pose proof (lowerChar_isHyphen c) as Hc. rewrite !isHyphen_dec in Hc.
  destruct (ascii_dec "-" (Js.lowerChar c)), (ascii_dec "-" c);
    try reflexivity; discriminate Hc.
Qed.

Lemma count_hyphens_toLowerCase (s : string) :
  countOccurrences "---" (Js.toLowerCase s) = countOccurrences "---" s.
Proof.
  induction s as [|c s IH]; [reflexivity|].
  cbn [Js.toLowerCase countOccurrences]. rewrite IH.
  change (String (Js.lowerChar c) (Js.toLowerCase s)) with (Js.toLowerCase (String c s)).
  now rewrite (prefix_hyphens_toLowerCase 3).
Qed.

Lemma collapseFrom_no_long_run (s : string) :
  forall run, countOccurrences "---" (collapseFrom run s) = 0%nat.
Proof.
  induction s as [|c s IH]; intros run; cbn [collapseFrom].
  - destruct run as [|[|run]]; reflexivity.
  - destruct (isHyphen c) eqn:Hc; [apply IH|].
    rewrite count_app_r.
    + cbn [countOccurrences]. rewrite IH, prefix_cons.
      rewrite isHyphen_dec in Hc.
      destruct (ascii_dec "-" c); [discriminate Hc|].
      destruct run as [|[|run]]; reflexivity.
    + change (occursIn c "--" = false). cbn [occursIn].
      assert (He : Ascii.eqb "-" c = false).
      { apply Ascii.eqb_neq. intros <-. discriminate Hc. }
      rewrite He. reflexivity.
Qed.

(** X17. Whatever the host name, its normalisation holds no run of three
    hyphens and no ASCII capital letter. *)
Theorem normalizeHostname_shape (hostname : string) :
  countOccurrences "---" (normalizeHostname hostname) = 0%nat
  /\ forall c, occursIn c (normalizeHostname hostname) = true -> isUpper c = false.
Proof.
  unfold normalizeHostname, collapseHyphenRuns. split.
  - rewrite count_hyphens_toLowerCase. apply collapseFrom_no_long_run.
  - intros c. apply toLowerCase_no_upper.
Qed.
